(** * User and message services: a shallow embedding

    The development follows [server/services/user.service.ts], the message
    service, and the two controllers.  JavaScript values are a small tagged
    union, plain objects are finite maps from property names to values, and
    the asynchronous service functions are computations in a state monad with
    exceptions whose state is the world of the external collaborators (the
    Mongoose models, the process clock, the HTTP response). *)

From Stdlib Require Import ZArith Ascii String List Permutation Sorted.
From stdpp Require Import gmap strings list fin_maps pretty.

Local Open Scope string_scope.
Local Open Scope Z_scope.

(** ** JavaScript values *)

(** The values the services and controllers can tell apart.  Numbers are
    the integral ones plus [NaN]; a [Date] carries its time value in
    milliseconds, [None] standing for an Invalid Date; an [ObjectId] is an
    opaque handle. *)
Inductive jsval : Type :=
| VUndef
| VNull
| VBool (b : bool)
| VNum (n : Z)
| VNaN
| VStr (s : string)
| VDate (t : option Z)
| VId (n : N).

#[global] Instance jsval_eq_dec : EqDecision jsval.
Proof. solve_decision. Defined.

(** A plain object: own enumerable properties, keyed by name. *)
Abbreviation jsobj := (gmap string jsval).

(** Property read [o.k]: a missing property reads as [undefined]. *)
Definition get (o : jsobj) (k : string) : jsval := default VUndef (o !! k).

(** The [in] operator on own properties. *)
Definition has_key (k : string) (o : jsobj) : bool := bool_decide (is_Some (o !! k)).

(** [typeof v === 'string'] *)
Definition is_string (v : jsval) : bool :=
  match v with VStr _ => true | _ => false end.

(** ToBoolean: the falsy values are [undefined], [null], [false], [0],
    [NaN] and the empty string; every object (a Date, even an invalid one,
    an ObjectId) is truthy. *)
Definition truthy (v : jsval) : bool :=
  match v with
  | VUndef | VNull | VNaN => false
  | VBool b => b
  | VNum n => negb (n =? 0)
  | VStr s => negb (String.eqb s "")
  | VDate _ | VId _ => true
  end.

(** ** [String.prototype.trim] *)

(** Strings are sequences of code units below 256.  In that range the
    white space and line terminators removed by [trim] are TAB, LF, VT, FF,
    CR, SPACE and NBSP. *)
Definition is_ws (c : ascii) : bool :=
  match nat_of_ascii c with
  | 9%nat | 10%nat | 11%nat | 12%nat | 13%nat | 32%nat | 160%nat => true
  | _ => false
  end.

Fixpoint trim_start (s : string) : string :=
  match s with
  | EmptyString => EmptyString
  | String c s' => if is_ws c then trim_start s' else s
  end.

(** Drops the trailing white space: a character is kept when it is not
    white space or when something survives after it. *)
Fixpoint trim_end (s : string) : string :=
  match s with
  | EmptyString => EmptyString
  | String c s' =>
      match trim_end s' with
      | EmptyString => if is_ws c then EmptyString else String c EmptyString
      | r => String c r
      end
  end.

Definition trim (s : string) : string := trim_end (trim_start s).

(** ** Exceptions and the service monad *)

(** What a call leaves behind: a value, or a thrown exception carrying its
    message text. *)
Inductive outcome (A : Type) : Type :=
| Ok (a : A)
| Throw (e : string).
Arguments Ok {A} a.
Arguments Throw {A} e.

(** [v?.trim()]: [undefined] when the receiver is nullish, the trimmed string
    for a string, and a TypeError for every other receiver, which has no
    [trim] method. *)
Definition opt_trim (v : jsval) : outcome jsval :=
  match v with
  | VUndef | VNull => Ok VUndef
  | VStr s => Ok (VStr (trim s))
  | _ => Throw "TypeError: trim is not a function"
  end.

(** ** Normalisation *)

(** [toSafeUser]: destructures [_id], [username] and [dateJoined] out of
    the user and builds a fresh object literal with exactly these three
    properties. *)
Definition toSafeUser (u : jsobj) : jsobj :=
  let id := get u "_id" in
  let username := get u "username" in
  let dateJoined := get u "dateJoined" in
  <["_id" := id]> (<["username" := username]> (<["dateJoined" := dateJoined]> ∅)).

(** [errorResp message = { error: message }] *)
Definition errorResp (message : string) : jsobj := {["error" := VStr message]}.

(** ** The external collaborators *)

(** The body of an HTTP response: plain text ([send]) or JSON ([json]). *)
Inductive payload : Type :=
| PText (s : string)
| PJson (o : jsobj)
| PJsonList (l : list jsobj).

(** A call that leaves the process. *)
Inductive call : Type :=
| CUserFindOne (username : jsval)
| CUserCreate (doc : jsobj)
| CUserFindOneAndDelete (username : jsval)
| CUserFindOneAndUpdate (username : jsval) (patch : jsobj)
| CMessageCreate (doc : jsobj)
| CMessageFind
| CRespond (status : Z) (body : payload)
| CEmit (event : string) (msg : jsobj).

(** One entry of the call log: the call, and whether it raised. *)
Record entry : Type := Entry { ecall : call; raised : bool }.

(** The collaborators, over a world [W] they may read and change: the two
    Mongoose models ([UserModel], [MessageModel]), the runtime (process
    clock, [Date.parse], the string conversion of a non-string value), the
    Express response and the socket.  Every model and response call may
    resolve or raise. *)
Record Env (W : Type) : Type := {
  userFindOne : jsval -> W -> outcome (option jsobj) * W;
  userCreate : jsobj -> W -> outcome jsobj * W;
  userFindOneAndDelete : jsval -> W -> outcome (option jsobj) * W;
  userFindOneAndUpdate : jsval -> jsobj -> W -> outcome (option jsobj) * W;
  messageCreate : jsobj -> W -> outcome jsobj * W;
  messageFind : W -> outcome (list jsobj) * W;
  clock : W -> Z;
  dateParse : string -> option Z;
  toStr : jsval -> string;
  respond : Z -> payload -> W -> outcome unit * W;
  socketEmit : string -> jsobj -> W -> outcome unit * W
}.
Arguments userFindOne {W}.
Arguments userCreate {W}.
Arguments userFindOneAndDelete {W}.
Arguments userFindOneAndUpdate {W}.
Arguments messageCreate {W}.
Arguments messageFind {W}.
Arguments clock {W}.
Arguments dateParse {W}.
Arguments toStr {W}.
Arguments respond {W}.
Arguments socketEmit {W}.

(** ** The monad of the asynchronous functions *)

(** What running a computation gives: its outcome, the world it leaves and
    the calls it made, oldest first. *)
Record run (W A : Type) : Type := Run {
  res : outcome A;
  world : W;
  calls : list entry
}.
Arguments Run {W A}.
Arguments res {W A}.
Arguments world {W A}.
Arguments calls {W A}.

Definition M (W A : Type) : Type := W -> run W A.

Definition ret {W A} (a : A) : M W A := fun w => Run (Ok a) w [].

Definition throw {W A} (e : string) : M W A := fun w => Run (Throw e) w [].

Definition bind {W A B} (m : M W A) (k : A -> M W B) : M W B :=
  fun w =>
    let r := m w in
    match res r with
    | Ok a => let r' := k a (world r) in
              Run (res r') (world r') (calls r ++ calls r')
    | Throw e => Run (Throw e) (world r) (calls r)
    end.

(** [try { m } catch (e) { h e }] *)
Definition try_catch {W A} (m : M W A) (h : string -> M W A) : M W A :=
  fun w =>
    let r := m w in
    match res r with
    | Ok a => r
    | Throw e => let r' := h e (world r) in
                 Run (res r') (world r') (calls r ++ calls r')
    end.

(** A pure step that may throw. *)
Definition lift {W A} (o : outcome A) : M W A :=
  match o with Ok a => ret a | Throw e => throw e end.

(** An awaited call to a collaborator, entered in the log. *)
Definition invoke {W A} (c : call) (f : W -> outcome A * W) : M W A :=
  fun w =>
    let '(o, w') := f w in
    Run o w' [Entry c (match o with Ok _ => false | Throw _ => true end)].

Notation "'let*' x ':=' m 'in' k" := (bind m (fun x => k))
  (at level 10, x name, m at level 100, k at level 200).
Notation "'let*' '_' ':=' m 'in' k" := (bind m (fun _ => k))
  (at level 10, m at level 100, k at level 200).

(** Did some call of the log raise? *)
Definition some_raised (l : list entry) : bool := existsb raised l.

(** The calls of a log that went to the user or message store. *)
Definition is_store_call (c : call) : bool :=
  match c with
  | CRespond _ _ | CEmit _ _ => false
  | _ => true
  end.

Definition store_calls (l : list entry) : list call :=
  filter (fun c => is_store_call c = true) (map ecall l).

(** ** Runtime helpers *)

(** Property read through optional chaining, [o?.k]. *)
Definition oget (o : option jsobj) (k : string) : jsval :=
  match o with Some o => get o k | None => VUndef end.

(** Property read [o.k] proper, which throws on a nullish [o]. *)
Definition must_get (o : option jsobj) (k : string) : outcome jsval :=
  match o with
  | Some o => Ok (get o k)
  | None => Throw "TypeError: cannot read properties of undefined"
  end.

(** TimeClip: a time value beyond 8.64e15 ms is not a time. *)
Definition timeClip (n : Z) : option Z :=
  if Z.abs n <=? 8640000000000000 then Some n else None.

Section Runtime.
Context {W : Type} (E : Env W).

(** [new Date()] *)
Definition newDateNow : M W jsval := fun w => Run (Ok (VDate (Some (clock E w)))) w [].

(** [new Date(v)]: a Date is copied, a number is clipped, a string goes
    through [Date.parse], [undefined] gives an Invalid Date, [null] and the
    booleans convert to numbers, and an ObjectId converts to its string. *)
Definition newDate (v : jsval) : jsval :=
  VDate
    match v with
    | VDate t => t
    | VNum n => timeClip n
    | VStr s => dateParse E s
    | VUndef | VNaN => None
    | VNull => Some 0
    | VBool b => Some (if b then 1 else 0)
    | VId n => dateParse E (toStr E (VId n))
    end.

(** [new Date(v).getTime()], [None] for [NaN]. *)
Definition getTime (v : jsval) : option Z :=
  match newDate v with VDate t => t | _ => None end.

(** [v.toString()] *)
Definition toString (v : jsval) : string :=
  match v with VStr s => s | _ => toStr E v end.

(** [v?.toString().trim()]: the whole chain is skipped on a nullish [v]. *)
Definition opt_toString_trim (v : jsval) : jsval :=
  match v with
  | VUndef | VNull => VUndef
  | _ => VStr (trim (toString v))
  end.

(** *** The user service *)

Definition saveUser (user : option jsobj) : M W jsobj :=
  try_catch
    (let* username := lift (opt_trim (oget user "username")) in
     let* password := lift (opt_trim (oget user "password")) in
     let* exists_ := invoke (CUserFindOne username) (userFindOne E username) in
     match exists_ with
     | Some _ => ret (errorResp "Username already exists")
     | None =>
         let* dateJoined := newDateNow in
         let doc : jsobj :=
           <["username" := username]>
             (<["password" := password]> (<["dateJoined" := dateJoined]> ∅)) in
         let* newUser := invoke (CUserCreate doc) (userCreate E doc) in
         ret (toSafeUser newUser)
     end)
    (fun _ => ret (errorResp "Failed to create user")).

Definition getUserByUsername (username : jsval) : M W jsobj :=
  try_catch
    (let* u := lift (opt_trim username) in
     let* doc := invoke (CUserFindOne u) (userFindOne E u) in
     match doc with
     | None => ret (errorResp "User not found")
     | Some doc => ret (toSafeUser doc)
     end)
    (fun _ => ret (errorResp "Failed to get user")).

(** [doc.password !== password] *)
Definition password_differs (doc : jsobj) (password : jsval) : bool :=
  negb (bool_decide (get doc "password" = password)).

Definition loginUser (loginCredentials : option jsobj) : M W jsobj :=
  try_catch
    (let* username := lift (opt_trim (oget loginCredentials "username")) in
     let* password := lift (opt_trim (oget loginCredentials "password")) in
     let* doc := invoke (CUserFindOne username) (userFindOne E username) in
     match doc with
     | None => ret (errorResp "Invalid credentials")
     | Some doc =>
         if password_differs doc password
         then ret (errorResp "Invalid credentials")
         else ret (toSafeUser doc)
     end)
    (fun _ => ret (errorResp "Failed to login")).

Definition deleteUserByUsername (username : jsval) : M W jsobj :=
  try_catch
    (let* u := lift (opt_trim username) in
     let* doc := invoke (CUserFindOneAndDelete u) (userFindOneAndDelete E u) in
     match doc with
     | None => ret (errorResp "User not found")
     | Some doc => ret (toSafeUser doc)
     end)
    (fun _ => ret (errorResp "Failed to delete user")).

(** The patch [updateUser] builds: [password] then [username], each only
    when the update carries it as a string. *)
Definition build_patch (updates : jsobj) : jsobj :=
  let patch : jsobj := ∅ in
  let patch :=
    match get updates "password" with
    | VStr p => <["password" := VStr (trim p)]> patch
    | _ => patch
    end in
  match get updates "username" with
  | VStr n => <["username" := VStr (trim n)]> patch
  | _ => patch
  end.

Definition updateUser (username : jsval) (updates : option jsobj) : M W jsobj :=
  try_catch
    (let* u := lift (opt_trim username) in
     let* _ := lift (must_get updates "password") in
     let patch := build_patch (default ∅ updates) in
     let* updated := invoke (CUserFindOneAndUpdate u patch) (userFindOneAndUpdate E u patch) in
     match updated with
     | None => ret (errorResp "User not found")
     | Some updated => ret (toSafeUser updated)
     end)
    (fun _ => ret (errorResp "Failed to update user")).

(** *** The message service *)

(** [!v] for the trimmed text, which is [undefined] or a string. *)
Definition falsy (v : jsval) : bool := negb (truthy v).

(** [message?.msgDateTime ? new Date(message.msgDateTime) : new Date()] *)
Definition timestamp_of (message : option jsobj) : M W jsval :=
  if truthy (oget message "msgDateTime")
  then ret (newDate (oget message "msgDateTime"))
  else newDateNow.

Definition saveMessage (message : option jsobj) : M W jsobj :=
  try_catch
    (let text := opt_toString_trim (oget message "msg") in
     let from := opt_toString_trim (oget message "msgFrom") in
     let* when := timestamp_of message in
     if falsy text || falsy from
     then ret (errorResp "Invalid message body")
     else
       let doc : jsobj :=
         <["msg" := text]> (<["msgFrom" := from]> (<["msgDateTime" := when]> ∅)) in
       let* created := invoke (CMessageCreate doc) (messageCreate E doc) in
       ret created)
    (fun _ => ret (errorResp "Failed to save message")).

(** The comparator of [getMessages]: the difference of the two time
    values, [NaN] ([None]) as soon as one of them is. *)
Definition compare_time (a b : jsobj) : option Z :=
  match getTime (get a "msgDateTime"), getTime (get b "msgDateTime") with
  | Some x, Some y => Some (x - y)
  | _, _ => None
  end.

(** [Array.prototype.sort] reads a [NaN] from its comparator as [+0]. *)
Definition sort_compare (cmp : jsobj -> jsobj -> option Z) (a b : jsobj) : Z :=
  default 0 (cmp a b).

(** [Array.prototype.sort(cmp)] is a stable sort; it is written here as the
    insertion sort that keeps an element in front of the later ones it does
    not exceed. *)
Fixpoint sort_insert (cmp : jsobj -> jsobj -> option Z) (x : jsobj) (l : list jsobj)
  : list jsobj :=
  match l with
  | [] => [x]
  | y :: l' =>
      if sort_compare cmp x y <=? 0 then x :: y :: l'
      else y :: sort_insert cmp x l'
  end.

Fixpoint array_sort (cmp : jsobj -> jsobj -> option Z) (l : list jsobj) : list jsobj :=
  match l with
  | [] => []
  | x :: l' => sort_insert cmp x (array_sort cmp l')
  end.

Definition getMessages : M W (list jsobj) :=
  try_catch
    (let* list := invoke CMessageFind (messageFind E) in
     ret (array_sort compare_time list))
    (fun _ => ret []).

(** *** The user controller *)

Record UserRequest : Type := {
  params : jsobj;
  body : option jsobj
}.

(** [typeof v === 'string' && v.trim().length > 0] *)
Definition nonblank_string (v : jsval) : bool :=
  match v with
  | VStr s => negb (String.eqb (trim s) "")
  | _ => false
  end.

Definition isUserBodyValid (req : UserRequest) : bool :=
  let u := oget (body req) "username" in
  let p := oget (body req) "password" in
  let hasValidUsername := nonblank_string u in
  let hasValidPassword := nonblank_string p in
  hasValidUsername && hasValidPassword.

(** [res.status(status).send(text)] and [res.status(status).json(value)] *)
Definition res_send (status : Z) (b : payload) : M W unit :=
  invoke (CRespond status b) (respond E status b).

Definition createUser (req : UserRequest) : M W unit :=
  try_catch
    (if negb (isUserBodyValid req)
     then res_send 400 (PJson (errorResp "username and password are required"))
     else
       let* username := lift (opt_trim (oget (body req) "username")) in
       let* password := lift (opt_trim (oget (body req) "password")) in
       let* dateJoined := newDateNow in
       let user : jsobj :=
         <["username" := username]>
           (<["password" := password]> (<["dateJoined" := dateJoined]> ∅)) in
       let* resp := saveUser (Some user) in
       if has_key "error" resp
       then res_send 500 (PJson resp)
       else res_send 201 (PJson resp))
    (fun _ => res_send 500 (PText "Error when creating user")).

Definition getUser (req : UserRequest) : M W unit :=
  try_catch
    (let uname := oget (body req) "username" in
     let* _ :=
       if falsy uname
       then res_send 400 (PText "Invalid username is required")
       else ret tt in
     let* resp := getUserByUsername uname in
     if has_key "error" resp
     then res_send 500 (PJson resp)
     else res_send 200 (PJson resp))
    (fun _ => res_send 500 (PText "Error when fetching user")).

Definition deleteUser (req : UserRequest) : M W unit :=
  try_catch
    (let uname := oget (body req) "username" in
     let* _ :=
       if falsy uname
       then res_send 400 (PText "Invalid username is required")
       else ret tt in
     let* resp := deleteUserByUsername uname in
     if has_key "error" resp
     then res_send 500 (PJson resp)
     else res_send 200 (PJson resp))
    (fun _ => res_send 500 (PText "Error when deleting user")).

(** *** The message controller *)

(** The request of [addMessageRoute], reduced to what the handler reads:
    [req?.body?.messageToAdd], [None] when it is nullish. *)
Record AddMessageRequest : Type := {
  messageToAdd : option jsobj
}.

Definition isMessageValid (message : option jsobj) : bool :=
  let hasMsg := nonblank_string (oget message "msg") in
  let hasFrom := nonblank_string (oget message "msgFrom") in
  hasMsg && hasFrom.

(** The [normalized] message of [addMessageRoute]. *)
Definition normalize (incoming : jsobj) : M W jsobj :=
  let msg := opt_toString_trim (get incoming "msg") in
  let msgFrom := opt_toString_trim (get incoming "msgFrom") in
  let* msgDateTime := timestamp_of (Some incoming) in
  ret (<["msg" := msg]>
         (<["msgFrom" := msgFrom]>
            (<["msgDateTime" := msgDateTime]> (<["_id" := get incoming "_id"]> ∅)))).

Definition addMessageRoute (req : AddMessageRequest) : M W unit :=
  try_catch
    (match messageToAdd req with
     | None => res_send 400 (PText "Invalid request")
     | Some incoming =>
         let* normalized := normalize incoming in
         if negb (isMessageValid (Some normalized))
         then res_send 400 (PText "Invalid message body")
         else
           let* resp := saveMessage (Some normalized) in
           if has_key "error" resp
           then res_send 500 (PJson resp)
           else
             let* _ := invoke (CEmit "messageUpdate" resp)
                         (socketEmit E "messageUpdate" resp) in
             res_send 200 (PJson resp)
     end)
    (fun _ => res_send 500 (PText "Error when adding message")).

Definition getMessagesRoute : M W unit :=
  try_catch
    (let* list := getMessages in
     res_send 200 (PJsonList list))
    (fun _ => res_send 500 (PText "Error when fetching messages")).

End Runtime.

(** ** A reference store *)

(** The world of the reference collaborators: the two collections in
    insertion order, the next ObjectId, the clock, what was written to the
    response and what was emitted on the socket. *)
Record store : Type := Store {
  users : list jsobj;
  messages : list jsobj;
  next_id : N;
  time : Z;
  sent : list (Z * payload);
  emitted : list (string * jsobj)
}.

(** The filter [{ username: q }]. *)
Definition username_is (q : jsval) (d : jsobj) : bool :=
  bool_decide (get d "username" = q).

(** The [required] rule of a String path: a string that is not empty. *)
Definition required_string (v : jsval) : bool :=
  match v with
  | VStr s => negb (String.eqb s "")
  | _ => false
  end.

(** A Date path: the given valid date, the default [Date.now] when the
    field is missing, a cast error otherwise. *)
Definition cast_date (now : Z) (v : jsval) : outcome jsval :=
  match v with
  | VDate (Some t) => Ok (VDate (Some t))
  | VUndef => Ok (VDate (Some now))
  | _ => Throw "CastError: Cast to date failed"
  end.

Fixpoint remove_first (f : jsobj -> bool) (l : list jsobj) : list jsobj :=
  match l with
  | [] => []
  | d :: l' => if f d then l' else d :: remove_first f l'
  end.

Fixpoint update_first (f : jsobj -> bool) (g : jsobj -> jsobj) (l : list jsobj)
  : list jsobj :=
  match l with
  | [] => []
  | d :: l' => if f d then g d :: l' else d :: update_first f g l'
  end.

(** Modelled from the spec: [UserModel.findOne({ username })], the first
    record with that user name, if any. *)
Definition mem_userFindOne (q : jsval) (w : store) : outcome (option jsobj) * store :=
  (Ok (List.find (username_is q) (users w)), w).

(** Modelled from the spec: [UserModel.create], under [user.schema.ts]: the
    user name and the password are required, the date defaults to now, and
    the user name is unique.  (A value that is not a string is refused here;
    the services pass strings or [undefined] only.) *)
Definition mem_userCreate (doc : jsobj) (w : store) : outcome jsobj * store :=
  if negb (required_string (get doc "username") && required_string (get doc "password"))
  then (Throw "ValidationError: User validation failed", w)
  else
    match cast_date (time w) (get doc "dateJoined") with
    | Throw e => (Throw e, w)
    | Ok dateJoined =>
        if existsb (username_is (get doc "username")) (users w)
        then (Throw "MongoServerError: E11000 duplicate key error", w)
        else
          let d : jsobj :=
            <["_id" := VId (next_id w)]>
              (<["username" := get doc "username"]>
                 (<["password" := get doc "password"]>
                    (<["dateJoined" := dateJoined]> (<["__v" := VNum 0]> ∅)))) in
          (Ok d,
           Store (users w ++ [d]) (messages w) (N.succ (next_id w)) (time w)
             (sent w) (emitted w))
    end.

(** Modelled from the spec: [UserModel.findOneAndDelete({ username })],
    which removes the first match and returns it. *)
Definition mem_userFindOneAndDelete (q : jsval) (w : store)
  : outcome (option jsobj) * store :=
  match List.find (username_is q) (users w) with
  | None => (Ok None, w)
  | Some d =>
      (Ok (Some d),
       Store (remove_first (username_is q) (users w)) (messages w) (next_id w) (time w)
         (sent w) (emitted w))
  end.

(** [$set]: the fields of the patch replace those of the record. *)
Definition apply_set (patch d : jsobj) : jsobj := patch ∪ d.

(** Modelled from the spec: [UserModel.findOneAndUpdate] with [$set] and
    [new: true]: the first match is updated in place and returned as
    updated; the patch is not validated, the unique index still holds. *)
Definition mem_userFindOneAndUpdate (q : jsval) (patch : jsobj) (w : store)
  : outcome (option jsobj) * store :=
  match List.find (username_is q) (users w) with
  | None => (Ok None, w)
  | Some d =>
      let d' := apply_set patch d in
      if negb (bool_decide (get d' "username" = get d "username"))
         && existsb (username_is (get d' "username")) (users w)
      then (Throw "MongoServerError: E11000 duplicate key error", w)
      else
        (Ok (Some d'),
         Store (update_first (username_is q) (apply_set patch) (users w)) (messages w)
           (next_id w) (time w) (sent w) (emitted w))
  end.

(** The time value a stored message carries. *)
Definition stored_time (d : jsobj) : Z :=
  match get d "msgDateTime" with
  | VDate (Some t) => t
  | _ => 0
  end.

(** Modelled from the spec: [MessageModel.create]: the text and the author
    are not empty, the timestamp is a valid date and defaults to now. *)
Definition mem_messageCreate (doc : jsobj) (w : store) : outcome jsobj * store :=
  if negb (required_string (get doc "msg") && required_string (get doc "msgFrom"))
  then (Throw "ValidationError: Message validation failed", w)
  else
    match cast_date (time w) (get doc "msgDateTime") with
    | Throw e => (Throw e, w)
    | Ok msgDateTime =>
        let d : jsobj :=
          <["_id" := VId (next_id w)]>
            (<["msg" := get doc "msg"]>
               (<["msgFrom" := get doc "msgFrom"]>
                  (<["msgDateTime" := msgDateTime]> (<["__v" := VNum 0]> ∅)))) in
        (Ok d,
         Store (users w) (messages w ++ [d]) (N.succ (next_id w)) (time w)
           (sent w) (emitted w))
    end.

(** The comparator of the store's own sort, [{ msgDateTime: 1 }]. *)
Definition by_stored_time (a b : jsobj) : option Z :=
  Some (stored_time a - stored_time b).

(** Modelled from the spec: [MessageModel.find({}).sort({ msgDateTime: 1 })],
    every message, ascending by timestamp, equal timestamps in insertion
    order. *)
Definition mem_messageFind (w : store) : outcome (list jsobj) * store :=
  (Ok (array_sort by_stored_time (messages w)), w).

(** The dates of the test data; every other string is not a date here. *)
Definition mem_dateParse (s : string) : option Z :=
  if String.eqb s "2024-06-04" then Some 1717459200000
  else if String.eqb s "2024-06-05" then Some 1717545600000
  else if String.eqb s "2024-12-03" then Some 1733184000000
  else None.

Definition mem_toStr (v : jsval) : string :=
  match v with
  | VUndef => "undefined"
  | VNull => "null"
  | VBool true => "true"
  | VBool false => "false"
  | VNum n => pretty n
  | VNaN => "NaN"
  | VStr s => s
  | VDate None => "Invalid Date"
  | VDate (Some t) => "Date(" ++ pretty t ++ ")"
  | VId n => pretty n
  end.

(** A response takes one body; a second write finds the headers sent. *)
Definition mem_respond (status : Z) (b : payload) (w : store) : outcome unit * store :=
  match sent w with
  | [] =>
      (Ok tt,
       Store (users w) (messages w) (next_id w) (time w) [(status, b)] (emitted w))
  | _ => (Throw "ERR_HTTP_HEADERS_SENT", w)
  end.

Definition mem_socketEmit (event : string) (msg : jsobj) (w : store)
  : outcome unit * store :=
  (Ok tt,
   Store (users w) (messages w) (next_id w) (time w) (sent w)
     (emitted w ++ [(event, msg)])).

(** Modelled from the spec: the persistence adapter, that is the Mongoose
    models [models/users.model] and [models/messages.model] the services
    import, which are not among the sources.  The spec asks of it
    create/find/update/delete by the unique key with atomic find-and-mutate,
    user names unique and not empty, message texts and authors not empty and
    a timestamp that defaults to the creation time; [user.schema.ts] adds
    that [username] and [password] are required strings.  The runtime parts
    ([Date.parse], the string conversion) are stand-ins that cover the test
    data. *)
Definition memEnv : Env store := {|
  userFindOne := mem_userFindOne;
  userCreate := mem_userCreate;
  userFindOneAndDelete := mem_userFindOneAndDelete;
  userFindOneAndUpdate := mem_userFindOneAndUpdate;
  messageCreate := mem_messageCreate;
  messageFind := mem_messageFind;
  clock := time;
  dateParse := mem_dateParse;
  toStr := mem_toStr;
  respond := mem_respond;
  socketEmit := mem_socketEmit
|}.

(** The same collaborators with the database unreachable: every model call
    raises. *)
Definition downEnv : Env store := {|
  userFindOne := fun _ w => (Throw "DB error", w);
  userCreate := fun _ w => (Throw "DB error", w);
  userFindOneAndDelete := fun _ w => (Throw "DB error", w);
  userFindOneAndUpdate := fun _ _ w => (Throw "DB error", w);
  messageCreate := fun _ w => (Throw "DB error", w);
  messageFind := fun w => (Throw "DB error", w);
  clock := time;
  dateParse := mem_dateParse;
  toStr := mem_toStr;
  respond := mem_respond;
  socketEmit := mem_socketEmit
|}.

(** An empty database on 2024-06-04. *)
Definition store0 : store := Store [] [] 1 1717459200000 [] [].

(** The user of the test data, as the store holds it. *)
Definition user1 : jsobj :=
  <["_id" := VId 1]>
    (<["username" := VStr "user1"]>
       (<["password" := VStr "password"]>
          (<["dateJoined" := VDate (Some 1733184000000)]> (<["__v" := VNum 0]> ∅)))).

Definition store1 : store := Store [user1] [] 2 1717459200000 [] [].

(** An object literal from its properties. *)
Definition obj (l : list (string * jsval)) : jsobj := list_to_map l.

(** ** The vocabulary of the statements *)

(** The string is empty or starts with a character that is not white space. *)
Definition no_lead (s : string) : Prop :=
  match s with
  | EmptyString => True
  | String c _ => is_ws c = false
  end.

(** The document [saveUser] hands to [create]. *)
Definition new_user_doc (username password : jsval) (now : Z) : jsobj :=
  <["username" := username]>
    (<["password" := password]> (<["dateJoined" := VDate (Some now)]> ∅)).

(** A service computation answers without a [password] property. *)
Definition password_free {W} (m : M W jsobj) : Prop :=
  forall w, exists o, res (m w) = Ok o /\ o !! "password" = None.

(** A service computation contains failures: it always returns, and when one
    of its calls raised it returns its fixed message. *)
Definition contains_failures {W} (m : M W jsobj) (message : string) : Prop :=
  forall w, exists o,
    res (m w) = Ok o /\
    (some_raised (calls (m w)) = true -> o = errorResp message).

(** A record whose user name and password the [required] rule accepts. *)
Definition schema_valid (d : jsobj) : bool :=
  required_string (get d "username") && required_string (get d "password").

(** The credentials object [{ username, password }]. *)
Definition credentials (username password : string) : option jsobj :=
  Some (obj [("username", VStr username); ("password", VStr password)]).

(** The user object [{ username, password }]. *)
Definition new_user (username password : string) : option jsobj :=
  Some (obj [("username", VStr username); ("password", VStr password)]).

(** What the services rely on from the store: a lookup changes nothing; a
    record that was created is found under its user name; a find-and-update
    returns the record the lookup finds, changed on the fields of the patch
    only. *)
Record StoreLaws {W : Type} (E : Env W) : Prop := {
  findOne_reads : forall q w, snd (userFindOne E q w) = w;
  create_then_found :
    forall doc w d w',
      userCreate E doc w = (Ok d, w') ->
      exists d', userFindOne E (get doc "username") w' = (Ok (Some d'), w');
  update_sets :
    forall q patch w d' w',
      userFindOneAndUpdate E q patch w = (Ok (Some d'), w') ->
      exists d,
        userFindOne E q w = (Ok (Some d), w) /\
        (forall k, patch !! k = None -> d' !! k = d !! k)
}.

(** The trimmed string a field of the update carries, if it is a string. *)
Definition trimmed_field (updates : jsobj) (k : string) : option jsval :=
  match get updates k with
  | VStr s => Some (VStr (trim s))
  | _ => None
  end.

(** A field that is missing or empty after trimming. *)
Definition blank (v : jsval) : Prop :=
  v = VUndef \/ v = VNull \/ exists s, v = VStr s /\ trim s = "".

(** The timestamp [saveMessage] and [addMessageRoute] compute. *)
Definition computed_timestamp {W} (E : Env W) (w : W) (message : option jsobj) : jsval :=
  if truthy (oget message "msgDateTime")
  then newDate E (oget message "msgDateTime")
  else VDate (Some (clock E w)).

(** The document [saveMessage] hands to [create]. *)
Definition message_doc (text from when : jsval) : jsobj :=
  <["msg" := text]> (<["msgFrom" := from]> (<["msgDateTime" := when]> ∅)).

(** The time value [getMessages] sorts a message by. *)
Definition msg_time {W} (E : Env W) (m : jsobj) : option Z :=
  getTime E (get m "msgDateTime").

(** [a] is not later than [b], both carrying a valid time. *)
Definition time_le {W} (E : Env W) (a b : jsobj) : Prop :=
  match msg_time E a, msg_time E b with
  | Some x, Some y => x <= y
  | _, _ => False
  end.

(** The time value as a number, for a message that has one. *)
Definition time_key {W} (E : Env W) (m : jsobj) : Z := default 0 (msg_time E m).

(** The message carries a valid time. *)
Definition has_time {W} (E : Env W) (m : jsobj) : Prop := is_Some (msg_time E m).

(** The message holds a valid Date, as every message the reference store
    created does. *)
Definition stored_date (m : jsobj) : Prop :=
  exists t, get m "msgDateTime" = VDate (Some t).

(** The two messages of the test data. *)
Definition message1 : jsobj :=
  obj [("msg", VStr "Hello"); ("msgFrom", VStr "User1");
       ("msgDateTime", VDate (Some 1717459200000))].

Definition message2 : jsobj :=
  obj [("msg", VStr "Hi"); ("msgFrom", VStr "User2");
       ("msgDateTime", VDate (Some 1717545600000))].

(** The reference collaborators with [find] mocked to return a given list. *)
Definition mockFind (l : list jsobj) : Env store := {|
  userFindOne := mem_userFindOne;
  userCreate := mem_userCreate;
  userFindOneAndDelete := mem_userFindOneAndDelete;
  userFindOneAndUpdate := mem_userFindOneAndUpdate;
  messageCreate := mem_messageCreate;
  messageFind := fun w => (Ok l, w);
  clock := time;
  dateParse := mem_dateParse;
  toStr := mem_toStr;
  respond := mem_respond;
  socketEmit := mem_socketEmit
|}.

(** The [400] the two handlers write when the user name is missing. *)
Definition username_required : entry :=
  Entry (CRespond 400 (PText "Invalid username is required")) false.

(** A request for [/users/user1] whose body carries no user name. *)
Definition request_without_body_name : UserRequest :=
  Build_UserRequest (obj [("username", VStr "user1")]) (Some ∅).

(** ** The remaining handlers *)

Section MoreHandlers.
Context {W : Type} (E : Env W).

Definition userLogin (req : UserRequest) : M W unit :=
  try_catch
    (if negb (isUserBodyValid req)
     then res_send E 400 (PJson (errorResp "username and password are required"))
     else
       let* username := lift (opt_trim (oget (body req) "username")) in
       let* password := lift (opt_trim (oget (body req) "password")) in
       let creds : jsobj :=
         <["username" := username]> (<["password" := password]> ∅) in
       let* resp := loginUser E (Some creds) in
       if has_key "error" resp
       then res_send E 500 (PJson resp)
       else res_send E 200 (PJson resp))
    (fun _ => res_send E 500 (PText "Error when logging in")).

Definition resetPassword (req : UserRequest) : M W unit :=
  try_catch
    (let* uname := lift (opt_trim (get (params req) "username")) in
     let* newPwd := lift (opt_trim (oget (body req) "password")) in
     if falsy uname
     then res_send E 400 (PJson (errorResp "username is required"))
     else if falsy newPwd
     then res_send E 400 (PJson (errorResp "new password is required"))
     else
       let* resp := updateUser E uname (Some (<["password" := newPwd]> ∅)) in
       if has_key "error" resp
       then res_send E 500 (PJson resp)
       else res_send E 200 (PJson resp))
    (fun _ => res_send E 500 (PText "Error when resetting password")).

End MoreHandlers.

(** ** More vocabulary *)

(** The response accepts every write. *)
Definition responds {W} (E : Env W) : Prop :=
  forall status b w, exists w', respond E status b w = (Ok tt, w').

(** The responses a log wrote, or tried to write, oldest first. *)
Definition responses (l : list entry) : list (Z * payload) :=
  flat_map (fun e => match ecall e with
                     | CRespond status b => [(status, b)]
                     | _ => []
                     end) l.

(** The events a log emitted on the socket. *)
Definition emits (l : list entry) : list (string * jsobj) :=
  flat_map (fun e => match ecall e with
                     | CEmit event msg => [(event, msg)]
                     | _ => []
                     end) l.

(** The status a handler answers a service result with: [500] when the
    result has an [error] property, the given status otherwise. *)
Definition status_for (success : Z) (resp : jsobj) : Z :=
  if has_key "error" resp then 500 else success.

(** A response that keeps every body written to it and never raises. *)
Definition log_respond (status : Z) (b : payload) (w : store) : outcome unit * store :=
  (Ok tt,
   Store (users w) (messages w) (next_id w) (time w) (sent w ++ [(status, b)])
     (emitted w)).

(** The reference collaborators with that response. *)
Definition openEnv : Env store := {|
  userFindOne := mem_userFindOne;
  userCreate := mem_userCreate;
  userFindOneAndDelete := mem_userFindOneAndDelete;
  userFindOneAndUpdate := mem_userFindOneAndUpdate;
  messageCreate := mem_messageCreate;
  messageFind := mem_messageFind;
  clock := time;
  dateParse := mem_dateParse;
  toStr := mem_toStr;
  respond := log_respond;
  socketEmit := mem_socketEmit
|}.

(** The same with a socket that raises on every emit. *)
Definition muteEnv : Env store := {|
  userFindOne := mem_userFindOne;
  userCreate := mem_userCreate;
  userFindOneAndDelete := mem_userFindOneAndDelete;
  userFindOneAndUpdate := mem_userFindOneAndUpdate;
  messageCreate := mem_messageCreate;
  messageFind := mem_messageFind;
  clock := time;
  dateParse := mem_dateParse;
  toStr := mem_toStr;
  respond := log_respond;
  socketEmit := fun _ _ w => (Throw "socket closed", w)
|}.

(** The same with the database unreachable. *)
Definition openDownEnv : Env store := {|
  userFindOne := fun _ w => (Throw "DB error", w);
  userCreate := fun _ w => (Throw "DB error", w);
  userFindOneAndDelete := fun _ w => (Throw "DB error", w);
  userFindOneAndUpdate := fun _ _ w => (Throw "DB error", w);
  messageCreate := fun _ w => (Throw "DB error", w);
  messageFind := fun w => (Throw "DB error", w);
  clock := time;
  dateParse := mem_dateParse;
  toStr := mem_toStr;
  respond := log_respond;
  socketEmit := mem_socketEmit
|}.

(** A request with the given path parameters and body. *)
Definition request (params body : list (string * jsval)) : UserRequest :=
  Build_UserRequest (obj params) (Some (obj body)).

(** * Properties *)

(** ** Trimming *)

Example trim_ex1 : trim "  user1 " = "user1".
Proof. reflexivity. Qed.

Example trim_ex2 : trim "   " = "".
Proof. reflexivity. Qed.

Example trim_ex3 : trim " a b " = "a b".
Proof. reflexivity. Qed.

Example trim_ex4 :
  trim (String "009" (String "160" (String "a" (String "010" (String "013" "")))))
  = "a".
Proof. reflexivity. Qed.

Lemma trim_start_no_lead (s : string) : no_lead (trim_start s).
Proof.
  induction s as [|c s IH]; cbn; [exact I|].
  destruct (is_ws c) eqn:Hc; [exact IH|exact Hc].
Qed.

Lemma trim_start_fixed (s : string) : no_lead s -> trim_start s = s.
Proof. destruct s as [|c s]; cbn; [reflexivity|]. intros ->. reflexivity. Qed.

Lemma trim_end_no_lead (s : string) : no_lead s -> no_lead (trim_end s).
Proof.
  destruct s as [|c s]; cbn; [exact id|]. intros Hc.
  destruct (trim_end s); [rewrite Hc|]; exact Hc.
Qed.

Lemma trim_end_idempotent (s : string) : trim_end (trim_end s) = trim_end s.
Proof.
  induction s as [|c s IH]; cbn; [reflexivity|].
  destruct (trim_end s) as [|c' r] eqn:Hr.
  - destruct (is_ws c) eqn:Hc; cbn; [reflexivity|]. rewrite Hc. reflexivity.
  - change (trim_end (String c (String c' r)))
      with (match trim_end (String c' r) with
            | EmptyString => if is_ws c then EmptyString else String c EmptyString
            | r' => String c r'
            end).
    rewrite IH. reflexivity.
Qed.

(** Trimming twice is trimming once. *)
Lemma trim_idempotent (s : string) : trim (trim s) = trim s.
Proof.
  unfold trim.
  rewrite (trim_start_fixed (trim_end (trim_start s))).
  - apply trim_end_idempotent.
  - apply trim_end_no_lead, trim_start_no_lead.
Qed.

(** ** The tests of the services, on the reference store *)

Example toSafeUser_ex :
  toSafeUser (obj [("password", VStr "pw"); ("username", VStr "user1")])
  = obj [("_id", VUndef); ("username", VStr "user1"); ("dateJoined", VUndef)].
Proof. vm_compute. reflexivity. Qed.

Example saveUser_ex :
  res (saveUser memEnv (new_user " user1 " "password") store0)
  = Ok (obj [("_id", VId 1); ("username", VStr "user1");
             ("dateJoined", VDate (Some 1717459200000))]).
Proof. vm_compute. reflexivity. Qed.

Example saveUser_exists_ex :
  res (saveUser memEnv (new_user "user1" "password") store1)
  = Ok (errorResp "Username already exists").
Proof. vm_compute. reflexivity. Qed.

Example getUserByUsername_ex :
  res (getUserByUsername memEnv (VStr "user1") store1)
  = Ok (obj [("_id", VId 1); ("username", VStr "user1");
             ("dateJoined", VDate (Some 1733184000000))]) /\
  res (getUserByUsername memEnv (VStr "nope") store1) = Ok (errorResp "User not found").
Proof. split; vm_compute; reflexivity. Qed.

Example loginUser_ex :
  res (loginUser memEnv (credentials "user1" " password ") store1)
  = Ok (toSafeUser user1) /\
  res (loginUser memEnv (credentials "user1" "secret") store1)
  = Ok (errorResp "Invalid credentials") /\
  res (loginUser memEnv (credentials "" "secret") store1)
  = Ok (errorResp "Invalid credentials") /\
  res (loginUser downEnv (credentials "user1" "password") store1)
  = Ok (errorResp "Failed to login").
Proof. repeat split; vm_compute; reflexivity. Qed.

Example deleteUserByUsername_ex :
  res (deleteUserByUsername memEnv (VStr "user1") store1) = Ok (toSafeUser user1) /\
  users (world (deleteUserByUsername memEnv (VStr "user1") store1)) = [] /\
  res (deleteUserByUsername memEnv (VStr "    ") store1) = Ok (errorResp "User not found").
Proof. repeat split; vm_compute; reflexivity. Qed.

Example updateUser_ex :
  res (updateUser memEnv (VStr "user1") (Some (obj [("password", VStr "newPassword")]))
         store1)
  = Ok (toSafeUser user1) /\
  users (world (updateUser memEnv (VStr "user1")
                  (Some (obj [("password", VStr "newPassword")])) store1))
  = [<["password" := VStr "newPassword"]> user1].
Proof. split; vm_compute; reflexivity. Qed.

Example saveMessage_ex :
  res (saveMessage memEnv (Some message1) store0)
  = Ok (obj [("_id", VId 1); ("msg", VStr "Hello"); ("msgFrom", VStr "User1");
             ("msgDateTime", VDate (Some 1717459200000)); ("__v", VNum 0)]) /\
  res (saveMessage memEnv (Some (obj [("msg", VStr ""); ("msgFrom", VStr "User1")])) store0)
  = Ok (errorResp "Invalid message body").
Proof. split; vm_compute; reflexivity. Qed.

Example getMessages_ex :
  res (getMessages (mockFind [message2; message1]) store0) = Ok [message1; message2] /\
  res (getMessages downEnv store0) = Ok [] /\
  res (getMessages memEnv store0) = Ok [].
Proof. repeat split; vm_compute; reflexivity. Qed.

(** ** The safe projection *)

Lemma toSafeUser_lookup (u : jsobj) (k : string) :
  toSafeUser u !! k =
    if decide (k = "_id") then Some (get u "_id")
    else if decide (k = "username") then Some (get u "username")
    else if decide (k = "dateJoined") then Some (get u "dateJoined")
    else None.
Proof.
  unfold toSafeUser. cbn zeta.
  repeat case_decide; subst; simplify_map_eq; reflexivity.
Qed.

Lemma toSafeUser_dom (u : jsobj) :
  dom (toSafeUser u) = ({[ "_id"; "username"; "dateJoined" ]} : gset string).
Proof.
  unfold toSafeUser. cbn zeta. rewrite !dom_insert_L, dom_empty_L. set_solver.
Qed.

Lemma toSafeUser_no_password (u : jsobj) : toSafeUser u !! "password" = None.
Proof. rewrite toSafeUser_lookup. reflexivity. Qed.

Lemma toSafeUser_no_error (u : jsobj) : has_key "error" (toSafeUser u) = false.
Proof.
  unfold has_key. rewrite toSafeUser_lookup. cbn.
  apply bool_decide_eq_false. intros [x Hx]. discriminate.
Qed.

Lemma errorResp_no_password (m : string) : errorResp m !! "password" = None.
Proof. unfold errorResp. apply lookup_singleton_ne. discriminate. Qed.

Lemma errorResp_has_error (m : string) : has_key "error" (errorResp m) = true.
Proof.
  unfold has_key, errorResp. apply bool_decide_eq_true.
  rewrite lookup_singleton_eq. eauto.
Qed.

Lemma errorResp_inj (m m' : string) : errorResp m = errorResp m' -> m = m'.
Proof.
  unfold errorResp. intros H.
  assert (H' : ({["error" := VStr m]} : jsobj) !! "error"
               = ({["error" := VStr m']} : jsobj) !! "error") by (rewrite H; reflexivity).
  rewrite !lookup_singleton_eq in H'. congruence.
Qed.

Lemma toSafeUser_not_error (u : jsobj) (m : string) : toSafeUser u <> errorResp m.
Proof.
  intros H. pose proof (toSafeUser_no_error u) as H1.
  rewrite H, errorResp_has_error in H1. discriminate.
Qed.

(** ** What each service call does *)

Ltac run_unfold :=
  unfold saveUser, getUserByUsername, loginUser, deleteUserByUsername, updateUser,
    saveMessage, getMessages, timestamp_of, newDateNow,
    try_catch, bind, lift, invoke, ret, throw; cbn.

Section ServiceRuns.
Context {W : Type} (E : Env W).

Lemma getUserByUsername_run (username : jsval) (w : W) :
  getUserByUsername E username w =
    match opt_trim username with
    | Throw _ => Run (Ok (errorResp "Failed to get user")) w []
    | Ok u =>
        match userFindOne E u w with
        | (Throw _, w') =>
            Run (Ok (errorResp "Failed to get user")) w' [Entry (CUserFindOne u) true]
        | (Ok None, w') =>
            Run (Ok (errorResp "User not found")) w' [Entry (CUserFindOne u) false]
        | (Ok (Some doc), w') =>
            Run (Ok (toSafeUser doc)) w' [Entry (CUserFindOne u) false]
        end
    end.
Proof.
  run_unfold. destruct (opt_trim username) as [u|e]; cbn; [|reflexivity].
  destruct (userFindOne E u w) as [[[d|]|e] w']; reflexivity.
Qed.

Lemma deleteUserByUsername_run (username : jsval) (w : W) :
  deleteUserByUsername E username w =
    match opt_trim username with
    | Throw _ => Run (Ok (errorResp "Failed to delete user")) w []
    | Ok u =>
        match userFindOneAndDelete E u w with
        | (Throw _, w') =>
            Run (Ok (errorResp "Failed to delete user")) w'
              [Entry (CUserFindOneAndDelete u) true]
        | (Ok None, w') =>
            Run (Ok (errorResp "User not found")) w'
              [Entry (CUserFindOneAndDelete u) false]
        | (Ok (Some doc), w') =>
            Run (Ok (toSafeUser doc)) w' [Entry (CUserFindOneAndDelete u) false]
        end
    end.
Proof.
  run_unfold. destruct (opt_trim username) as [u|e]; cbn; [|reflexivity].
  destruct (userFindOneAndDelete E u w) as [[[d|]|e] w']; reflexivity.
Qed.

Lemma loginUser_run (c : option jsobj) (w : W) :
  loginUser E c w =
    match opt_trim (oget c "username") with
    | Throw _ => Run (Ok (errorResp "Failed to login")) w []
    | Ok username =>
        match opt_trim (oget c "password") with
        | Throw _ => Run (Ok (errorResp "Failed to login")) w []
        | Ok password =>
            match userFindOne E username w with
            | (Throw _, w') =>
                Run (Ok (errorResp "Failed to login")) w'
                  [Entry (CUserFindOne username) true]
            | (Ok None, w') =>
                Run (Ok (errorResp "Invalid credentials")) w'
                  [Entry (CUserFindOne username) false]
            | (Ok (Some doc), w') =>
                Run (Ok (if password_differs doc password
                         then errorResp "Invalid credentials"
                         else toSafeUser doc)) w'
                  [Entry (CUserFindOne username) false]
            end
        end
    end.
Proof.
  run_unfold. destruct (opt_trim (oget c "username")) as [u|e]; cbn; [|reflexivity].
  destruct (opt_trim (oget c "password")) as [p|e]; cbn; [|reflexivity].
  destruct (userFindOne E u w) as [[[d|]|e] w']; cbn; try reflexivity.
  destruct (password_differs d p); reflexivity.
Qed.

Lemma saveUser_run (user : option jsobj) (w : W) :
  saveUser E user w =
    match opt_trim (oget user "username") with
    | Throw _ => Run (Ok (errorResp "Failed to create user")) w []
    | Ok username =>
        match opt_trim (oget user "password") with
        | Throw _ => Run (Ok (errorResp "Failed to create user")) w []
        | Ok password =>
            match userFindOne E username w with
            | (Throw _, w') =>
                Run (Ok (errorResp "Failed to create user")) w'
                  [Entry (CUserFindOne username) true]
            | (Ok (Some _), w') =>
                Run (Ok (errorResp "Username already exists")) w'
                  [Entry (CUserFindOne username) false]
            | (Ok None, w') =>
                let doc := new_user_doc username password (clock E w') in
                match userCreate E doc w' with
                | (Throw _, w'') =>
                    Run (Ok (errorResp "Failed to create user")) w''
                      [Entry (CUserFindOne username) false; Entry (CUserCreate doc) true]
                | (Ok newUser, w'') =>
                    Run (Ok (toSafeUser newUser)) w''
                      [Entry (CUserFindOne username) false; Entry (CUserCreate doc) false]
                end
            end
        end
    end.
Proof.
  run_unfold. destruct (opt_trim (oget user "username")) as [u|e]; cbn; [|reflexivity].
  destruct (opt_trim (oget user "password")) as [p|e]; cbn; [|reflexivity].
  destruct (userFindOne E u w) as [[[d|]|e] w']; cbn; try reflexivity.
  unfold new_user_doc.
  destruct (userCreate E _ w') as [[d|e] w'']; reflexivity.
Qed.

Lemma updateUser_run (username : jsval) (updates : option jsobj) (w : W) :
  updateUser E username updates w =
    match opt_trim username, updates with
    | Throw _, _ | _, None => Run (Ok (errorResp "Failed to update user")) w []
    | Ok u, Some upd =>
        let patch := build_patch upd in
        match userFindOneAndUpdate E u patch w with
        | (Throw _, w') =>
            Run (Ok (errorResp "Failed to update user")) w'
              [Entry (CUserFindOneAndUpdate u patch) true]
        | (Ok None, w') =>
            Run (Ok (errorResp "User not found")) w'
              [Entry (CUserFindOneAndUpdate u patch) false]
        | (Ok (Some updated), w') =>
            Run (Ok (toSafeUser updated)) w'
              [Entry (CUserFindOneAndUpdate u patch) false]
        end
    end.
Proof.
  run_unfold. destruct (opt_trim username) as [u|e]; cbn; [|reflexivity].
  destruct updates as [upd|]; cbn; [|reflexivity].
  destruct (userFindOneAndUpdate E u (build_patch upd) w) as [[[d|]|e] w']; reflexivity.
Qed.

End ServiceRuns.

Ltac run_cases E :=
  repeat match goal with
    | |- context [match opt_trim ?v with _ => _ end] => destruct (opt_trim v); cbn
    | |- context [match userFindOne E ?q ?w with _ => _ end] =>
        destruct (userFindOne E q w) as [[[?|]|?] ?]; cbn
    | |- context [match userFindOneAndDelete E ?q ?w with _ => _ end] =>
        destruct (userFindOneAndDelete E q w) as [[[?|]|?] ?]; cbn
    | |- context [match userFindOneAndUpdate E ?q ?p ?w with _ => _ end] =>
        destruct (userFindOneAndUpdate E q p w) as [[[?|]|?] ?]; cbn
    | |- context [match userCreate E ?d ?w with _ => _ end] =>
        destruct (userCreate E d w) as [[?|?] ?]; cbn
    | |- context [if password_differs ?d ?p then _ else _] =>
        destruct (password_differs d p); cbn
    | |- context [match ?u with Some _ => _ | None => _ end] =>
        is_var u; destruct u; cbn
    end.

(** C1. For every user object, also one with fields missing, [toSafeUser]
    returns exactly the properties [_id], [username] and [dateJoined], with
    the values read from the user, and no [password]; hence every answer of
    [saveUser], [getUserByUsername], [loginUser], [deleteUserByUsername] and
    [updateUser], whatever the store does, has no [password] property. *)
Theorem toSafeUser_drops_password :
  (forall u : jsobj,
      dom (toSafeUser u) = ({[ "_id"; "username"; "dateJoined" ]} : gset string) /\
      toSafeUser u !! "_id" = Some (get u "_id") /\
      toSafeUser u !! "username" = Some (get u "username") /\
      toSafeUser u !! "dateJoined" = Some (get u "dateJoined") /\
      toSafeUser u !! "password" = None) /\
  (forall (W : Type) (E : Env W),
      (forall user, password_free (saveUser E user)) /\
      (forall username, password_free (getUserByUsername E username)) /\
      (forall credentials, password_free (loginUser E credentials)) /\
      (forall username, password_free (deleteUserByUsername E username)) /\
      (forall username updates, password_free (updateUser E username updates))).
Proof.
  split.
  - intros u. split; [apply toSafeUser_dom|].
    rewrite !toSafeUser_lookup. cbn. auto.
  - intros W E. unfold password_free.
    repeat split; intros.
    + rewrite saveUser_run. run_cases E;
        eexists; (split; [reflexivity|]);
        auto using toSafeUser_no_password, errorResp_no_password.
    + rewrite getUserByUsername_run. run_cases E;
        eexists; (split; [reflexivity|]);
        auto using toSafeUser_no_password, errorResp_no_password.
    + rewrite loginUser_run. run_cases E;
        eexists; (split; [reflexivity|]);
        auto using toSafeUser_no_password, errorResp_no_password.
    + rewrite deleteUserByUsername_run. run_cases E;
        eexists; (split; [reflexivity|]);
        auto using toSafeUser_no_password, errorResp_no_password.
    + rewrite updateUser_run. run_cases E;
        eexists; (split; [reflexivity|]);
        auto using toSafeUser_no_password, errorResp_no_password.
Qed.

(** C4. Whatever the input and whatever the store does, each of the five
    user-service operations returns a value and throws nothing; when a call
    to the store raised, the value is the operation's fixed message,
    whatever text the exception carried. *)
Theorem user_service_contains_failures (W : Type) (E : Env W) :
  (forall user, contains_failures (saveUser E user) "Failed to create user") /\
  (forall username, contains_failures (getUserByUsername E username) "Failed to get user") /\
  (forall credentials, contains_failures (loginUser E credentials) "Failed to login") /\
  (forall username,
      contains_failures (deleteUserByUsername E username) "Failed to delete user") /\
  (forall username updates,
      contains_failures (updateUser E username updates) "Failed to update user").
Proof.
  unfold contains_failures.
  repeat split; intros.
  - rewrite saveUser_run. run_cases E;
      eexists; (split; [reflexivity|]); cbn; intros; congruence.
  - rewrite getUserByUsername_run. run_cases E;
      eexists; (split; [reflexivity|]); cbn; intros; congruence.
  - rewrite loginUser_run. run_cases E;
      eexists; (split; [reflexivity|]); cbn; intros; congruence.
  - rewrite deleteUserByUsername_run. run_cases E;
      eexists; (split; [reflexivity|]); cbn; intros; congruence.
  - rewrite updateUser_run. run_cases E;
      eexists; (split; [reflexivity|]); cbn; intros; congruence.
Qed.

(** ** Blank credentials *)

Lemma oget_credentials (u p : string) :
  oget (credentials u p) "username" = VStr u /\
  oget (credentials u p) "password" = VStr p.
Proof. split; reflexivity. Qed.

Lemma required_string_not_empty (v : jsval) : required_string v = true -> v <> VStr "".
Proof. intros H ->. discriminate. Qed.

(** C2 (amended). For credentials whose user name or password is blank after
    trimming, [loginUser] makes exactly one call to the store, the lookup by
    the trimmed user name, and answers ["Invalid credentials"] whenever that
    lookup resolves to no record or to a record that matches the filter and
    satisfies the schema (a user name and a password that are not empty). *)
Theorem loginUser_blank_credentials
    (W : Type) (E : Env W) (w : W) (c : option jsobj) (u p : string) :
  oget c "username" = VStr u ->
  oget c "password" = VStr p ->
  trim u = "" \/ trim p = "" ->
  store_calls (calls (loginUser E c w)) = [CUserFindOne (VStr (trim u))] /\
  (forall found w',
      userFindOne E (VStr (trim u)) w = (Ok found, w') ->
      (forall d, found = Some d ->
                 username_is (VStr (trim u)) d = true /\ schema_valid d = true) ->
      res (loginUser E c w) = Ok (errorResp "Invalid credentials") /\
      world (loginUser E c w) = w').
Proof.
  intros Hu Hp Hblank. rewrite loginUser_run, Hu, Hp. cbn [opt_trim].
  split.
  - destruct (userFindOne E (VStr (trim u)) w) as [[[d|]|e] w1]; reflexivity.
  - intros found w' Hfind Hvalid. rewrite Hfind.
    destruct found as [d|]; [|split; reflexivity].
    destruct (Hvalid d eq_refl) as [Hname Hschema].
    apply andb_prop in Hschema as [Hn Hpw].
    apply bool_decide_eq_true in Hname.
    assert (Hdiff : password_differs d (VStr (trim p)) = true).
    { unfold password_differs. apply negb_true_iff, bool_decide_eq_false.
      destruct Hblank as [Hb|Hb].
      - rewrite Hb in Hname. apply required_string_not_empty in Hn. congruence.
      - rewrite Hb. apply required_string_not_empty. exact Hpw. }
    rewrite Hdiff. split; reflexivity.
Qed.

Lemma loginUser_blank_credentials_witness :
  res (loginUser memEnv (credentials "user1" "   ") store1)
    = Ok (errorResp "Invalid credentials").
Proof.
  refine (proj1 (proj2 (loginUser_blank_credentials store memEnv store1
                   (credentials "user1" "   ") "user1" "   " eq_refl eq_refl
                   (or_intror eq_refl)) (Some user1) store1 eq_refl _)).
  intros d Hd. injection Hd as <-. split; vm_compute; reflexivity.
Defined.

(** C2, as stated, fails: a blank user name still goes to the store as a
    lookup, and a store holding a record with an empty password (here set
    through [updateUser]) lets a blank password in. *)
Lemma loginUser_blank_counterexample :
  store_calls (calls (loginUser memEnv (credentials "" "x") store0))
    = [CUserFindOne (VStr "")] /\
  (let w1 := world (updateUser memEnv (VStr "user1")
                      (Some (obj [("password", VStr "   ")])) store1) in
   res (loginUser memEnv (credentials "user1" "  ") w1)
     = Ok (toSafeUser user1)).
Proof. split; vm_compute; reflexivity. Qed.

(** ** Laws of a store *)

Lemma find_app_some (f : jsobj -> bool) (l : list jsobj) (d : jsobj) :
  f d = true -> exists d', List.find f (l ++ [d]) = Some d'.
Proof.
  intros Hd. induction l as [|x l IH]; cbn.
  - rewrite Hd. eauto.
  - destruct (f x); eauto.
Qed.

Lemma memEnv_laws : StoreLaws memEnv.
Proof.
  split.
  - reflexivity.
  - intros doc w d w'. cbn. unfold mem_userCreate, mem_userFindOne.
    destruct (negb _); [discriminate|].
    destruct (cast_date _ _) as [dj|e]; [|discriminate].
    destruct (existsb _ _); [discriminate|].
    intros H. injection H as <- <-. cbn.
    destruct (find_app_some (username_is (get doc "username")) (users w)
                (<["_id" := VId (next_id w)]>
                   (<["username" := get doc "username"]>
                      (<["password" := get doc "password"]>
                         (<["dateJoined" := dj]> (<["__v" := VNum 0]> ∅))))))
      as [d' Hd'].
    + unfold username_is, get. apply bool_decide_eq_true.
      rewrite lookup_insert_ne by discriminate. rewrite lookup_insert_eq. reflexivity.
    + exists d'. rewrite Hd'. reflexivity.
  - intros q patch w d' w'. cbn. unfold mem_userFindOneAndUpdate, mem_userFindOne.
    destruct (List.find (username_is q) (users w)) as [d|]; [|discriminate].
    destruct (_ && _); [discriminate|].
    intros H. injection H as <- <-.
    exists d. split; [reflexivity|].
    intros k Hk. unfold apply_set. rewrite lookup_union_r by exact Hk. reflexivity.
Qed.

(** ** Saving the same user name twice *)

(** C3 (amended). On a store that keeps its laws, if a first [saveUser] with
    user name [u] does not end in its failure message, then a second
    [saveUser] with the same [u] and any password, made right after, answers
    that the user name already exists; its only call is the lookup, it
    creates nothing and leaves the store as it was. *)
Theorem saveUser_twice
    (W : Type) (E : Env W) (w : W) (first second : option jsobj) (u p1 p2 : string) :
  StoreLaws E ->
  oget first "username" = VStr u ->
  oget first "password" = VStr p1 ->
  oget second "username" = VStr u ->
  oget second "password" = VStr p2 ->
  res (saveUser E first w) <> Ok (errorResp "Failed to create user") ->
  let w1 := world (saveUser E first w) in
  res (saveUser E second w1) = Ok (errorResp "Username already exists") /\
  calls (saveUser E second w1) = [Entry (CUserFindOne (VStr (trim u))) false] /\
  world (saveUser E second w1) = w1.
Proof.
  intros L Hu1 Hp1 Hu2 Hp2 Hfirst. cbn zeta. revert Hfirst.
  rewrite !saveUser_run, Hu1, Hp1, Hu2, Hp2. cbn [opt_trim].
  pose proof (findOne_reads E L (VStr (trim u)) w) as Hread.
  destruct (userFindOne E (VStr (trim u)) w) as [[[d|]|e] w'] eqn:Hfind;
    cbn in Hread; subst w'; cbn zeta.
  - intros _. cbn [world]. rewrite Hfind. auto.
  - destruct (userCreate E _ w) as [[d|e] w''] eqn:Hcreate; cbn [res world].
    + intros _.
      destruct (create_then_found E L _ _ _ _ Hcreate) as [d' Hd'].
      unfold new_user_doc, get in Hd'. rewrite lookup_insert_eq in Hd'. cbn in Hd'.
      rewrite Hd'. auto.
    + intros H. exfalso. apply H. reflexivity.
  - intros H. exfalso. apply H. reflexivity.
Qed.

Lemma saveUser_twice_witness :
  res (saveUser memEnv (new_user " user1" "other")
         (world (saveUser memEnv (new_user " user1" "password") store0)))
    = Ok (errorResp "Username already exists").
Proof.
  refine (proj1 (saveUser_twice store memEnv store0
                   (new_user " user1" "password") (new_user " user1" "other")
                   " user1" "password" "other" memEnv_laws
                   eq_refl eq_refl eq_refl eq_refl _)).
  vm_compute. intros H. discriminate H.
Defined.

(** C3, as stated, fails for a user name that is blank after trimming: the
    store refuses the empty name, so both calls end in the failure message;
    and after a first call with a blank password, which the store refuses
    too, the second call creates the record. *)
Lemma saveUser_twice_counterexample :
  let w1 := world (saveUser memEnv (new_user "   " "password") store0) in
  let w2 := world (saveUser memEnv (new_user "user1" "   ") store0) in
  res (saveUser memEnv (new_user "   " "password") store0)
    = Ok (errorResp "Failed to create user") /\
  res (saveUser memEnv (new_user "   " "other") w1)
    = Ok (errorResp "Failed to create user") /\
  res (saveUser memEnv (new_user "user1" "   ") store0)
    = Ok (errorResp "Failed to create user") /\
  res (saveUser memEnv (new_user "user1" "other") w2)
    = Ok (obj [("_id", VId 1); ("username", VStr "user1");
               ("dateJoined", VDate (Some 1717459200000))]) /\
  length (users (world (saveUser memEnv (new_user "user1" "other") w2))) = 1%nat.
Proof. cbn zeta. repeat split; vm_compute; reflexivity. Qed.

(** ** Updating a user *)

Lemma build_patch_lookup (updates : jsobj) (k : string) :
  build_patch updates !! k =
    if decide (k = "username") then trimmed_field updates "username"
    else if decide (k = "password") then trimmed_field updates "password"
    else None.
Proof.
  unfold build_patch, trimmed_field. cbn zeta.
  destruct (get updates "password"), (get updates "username");
    repeat case_decide; subst; simplify_map_eq; reflexivity.
Qed.

Lemma build_patch_dom (updates : jsobj) :
  dom (build_patch updates) ⊆ ({[ "username"; "password" ]} : gset string).
Proof.
  intros k Hk. apply elem_of_dom in Hk as [v Hv].
  rewrite build_patch_lookup in Hv.
  repeat case_decide; subst; try discriminate; set_solver.
Qed.

(** C5. [updateUser] hands the store one find-and-update, filtered by the
    trimmed name, whose patch holds [username] and [password] only, each only
    when the update carries it as a string, and then trimmed; it answers
    ["User not found"] when the store matches no record; and when only the
    password is updated, on a store that keeps its laws, the answer has no
    [password] and carries the [username] and [dateJoined] the record had
    before, which the updated record keeps. *)
Theorem updateUser_patch_and_frame
    (W : Type) (E : Env W) (w : W) (name : string) (updates : jsobj) :
  StoreLaws E ->
  let patch := build_patch updates in
  let r := updateUser E (VStr name) (Some updates) w in
  (dom patch ⊆ ({[ "username"; "password" ]} : gset string) /\
   patch !! "username" = trimmed_field updates "username" /\
   patch !! "password" = trimmed_field updates "password" /\
   store_calls (calls r) = [CUserFindOneAndUpdate (VStr (trim name)) patch]) /\
  (forall w',
      userFindOneAndUpdate E (VStr (trim name)) patch w = (Ok None, w') ->
      res r = Ok (errorResp "User not found")) /\
  (forall p updated w',
      get updates "password" = VStr p ->
      is_string (get updates "username") = false ->
      userFindOneAndUpdate E (VStr (trim name)) patch w = (Ok (Some updated), w') ->
      exists o stored,
        res r = Ok o /\
        o !! "password" = None /\
        has_key "error" o = false /\
        userFindOne E (VStr (trim name)) w = (Ok (Some stored), w) /\
        get o "username" = get stored "username" /\
        get o "dateJoined" = get stored "dateJoined" /\
        get updated "username" = get stored "username" /\
        get updated "dateJoined" = get stored "dateJoined").
Proof.
  intros L. cbn zeta. rewrite updateUser_run. cbn [opt_trim]. cbn zeta.
  split; [|split].
  - split; [apply build_patch_dom|].
    rewrite !build_patch_lookup. cbn.
    repeat split.
    destruct (userFindOneAndUpdate E _ _ w) as [[[d|]|e] w1]; reflexivity.
  - intros w' H. rewrite H. reflexivity.
  - intros p updated w' Hp Hn Hupd. rewrite Hupd.
    destruct (update_sets E L _ _ _ _ _ Hupd) as [stored [Hfind Hframe]].
    assert (Huser : build_patch updates !! "username" = None).
    { rewrite build_patch_lookup. cbn. unfold trimmed_field.
      destruct (get updates "username"); try reflexivity. discriminate. }
    assert (Hdate : build_patch updates !! "dateJoined" = None).
    { rewrite build_patch_lookup. reflexivity. }
    exists (toSafeUser updated), stored. cbn [res].
    split; [reflexivity|].
    split; [apply toSafeUser_no_password|].
    split; [apply toSafeUser_no_error|].
    split; [exact Hfind|].
    repeat apply conj.
    + unfold get at 1. rewrite toSafeUser_lookup. cbn.
      unfold get. rewrite (Hframe _ Huser). reflexivity.
    + unfold get at 1. rewrite toSafeUser_lookup. cbn.
      unfold get. rewrite (Hframe _ Hdate). reflexivity.
    + unfold get. rewrite (Hframe _ Huser). reflexivity.
    + unfold get. rewrite (Hframe _ Hdate). reflexivity.
Qed.

Lemma updateUser_patch_and_frame_witness :
  (exists o stored,
      res (updateUser memEnv (VStr " user1 ") (Some (obj [("password", VStr " new ")]))
             store1) = Ok o /\
      o !! "password" = None /\
      has_key "error" o = false /\
      userFindOne memEnv (VStr (trim " user1 ")) store1 = (Ok (Some stored), store1) /\
      get o "username" = get stored "username" /\
      get o "dateJoined" = get stored "dateJoined" /\
      get (<["password" := VStr "new"]> user1) "username" = get stored "username" /\
      get (<["password" := VStr "new"]> user1) "dateJoined" = get stored "dateJoined") /\
  res (updateUser memEnv (VStr "nobody") (Some (obj [("password", VStr "new")])) store1)
    = Ok (errorResp "User not found").
Proof.
  split.
  - exact (proj2 (proj2 (updateUser_patch_and_frame store memEnv store1 " user1 "
                           (obj [("password", VStr " new ")]) memEnv_laws))
             " new " (<["password" := VStr "new"]> user1)
             (Store [<["password" := VStr "new"]> user1] [] 2 1717459200000 [] [])
             eq_refl eq_refl eq_refl).
  - exact (proj1 (proj2 (updateUser_patch_and_frame store memEnv store1 "nobody"
                           (obj [("password", VStr "new")]) memEnv_laws))
             store1 eq_refl).
Defined.

(** ** Saving a message *)

Section MessageRuns.
Context {W : Type} (E : Env W).

Lemma timestamp_of_run (message : option jsobj) (w : W) :
  timestamp_of E message w = Run (Ok (computed_timestamp E w message)) w [].
Proof.
  unfold timestamp_of, computed_timestamp, newDateNow, ret.
  destruct (truthy _); reflexivity.
Qed.

Lemma saveMessage_run (message : option jsobj) (w : W) :
  saveMessage E message w =
    let text := opt_toString_trim E (oget message "msg") in
    let from := opt_toString_trim E (oget message "msgFrom") in
    if falsy text || falsy from
    then Run (Ok (errorResp "Invalid message body")) w []
    else
      let doc := message_doc text from (computed_timestamp E w message) in
      match messageCreate E doc w with
      | (Ok created, w') => Run (Ok created) w' [Entry (CMessageCreate doc) false]
      | (Throw _, w') =>
          Run (Ok (errorResp "Failed to save message")) w'
            [Entry (CMessageCreate doc) true]
      end.
Proof.
  unfold saveMessage, try_catch, bind. rewrite timestamp_of_run. cbn.
  destruct (falsy _ || falsy _); [reflexivity|].
  unfold invoke, ret, message_doc.
  destruct (messageCreate E _ w) as [[d|e] w']; reflexivity.
Qed.

Lemma blank_falsy (v : jsval) : blank v -> falsy (opt_toString_trim E v) = true.
Proof.
  intros [->|[->|[s [-> Hs]]]]; try reflexivity.
  unfold falsy, opt_toString_trim, toString, truthy. rewrite Hs. reflexivity.
Qed.

Lemma nonblank_truthy (s : string) :
  trim s <> "" -> falsy (opt_toString_trim E (VStr s)) = false.
Proof.
  intros Hs. unfold falsy, opt_toString_trim, toString, truthy.
  destruct (String.eqb_spec (trim s) ""); [contradiction|reflexivity].
Qed.

Lemma saveMessage_nonblank (message : option jsobj) (w : W) (text from : string) :
  oget message "msg" = VStr text ->
  oget message "msgFrom" = VStr from ->
  trim text <> "" ->
  trim from <> "" ->
  saveMessage E message w =
    let doc := message_doc (VStr (trim text)) (VStr (trim from))
                 (computed_timestamp E w message) in
    match messageCreate E doc w with
    | (Ok created, w') => Run (Ok created) w' [Entry (CMessageCreate doc) false]
    | (Throw _, w') =>
        Run (Ok (errorResp "Failed to save message")) w'
          [Entry (CMessageCreate doc) true]
    end.
Proof.
  intros Ht Hf Hnt Hnf. rewrite saveMessage_run. cbn zeta. rewrite Ht, Hf.
  rewrite (nonblank_truthy text Hnt), (nonblank_truthy from Hnf).
  reflexivity.
Qed.

Lemma getMessages_run (w : W) :
  getMessages E w =
    match messageFind E w with
    | (Ok list, w') => Run (Ok (array_sort (compare_time E) list)) w' [Entry CMessageFind false]
    | (Throw _, w') => Run (Ok []) w' [Entry CMessageFind true]
    end.
Proof.
  unfold getMessages, try_catch, bind, invoke, ret.
  destruct (messageFind E w) as [[l|e] w']; reflexivity.
Qed.

End MessageRuns.

(** C6. When [msg] or [msgFrom] is missing or empty after trimming,
    [saveMessage] answers ["Invalid message body"], calls nothing and leaves
    the store as it was; otherwise it hands the store one [create] with the
    two trimmed texts and the computed timestamp, and answers with the
    created record as the store returned it. *)
Theorem saveMessage_validates (W : Type) (E : Env W) (w : W) (message : option jsobj) :
  (blank (oget message "msg") \/ blank (oget message "msgFrom") ->
   saveMessage E message w = Run (Ok (errorResp "Invalid message body")) w []) /\
  (forall text from,
      oget message "msg" = VStr text ->
      oget message "msgFrom" = VStr from ->
      trim text <> "" ->
      trim from <> "" ->
      let doc := message_doc (VStr (trim text)) (VStr (trim from))
                   (computed_timestamp E w message) in
      store_calls (calls (saveMessage E message w)) = [CMessageCreate doc] /\
      forall created w',
        messageCreate E doc w = (Ok created, w') ->
        saveMessage E message w = Run (Ok created) w' [Entry (CMessageCreate doc) false]).
Proof.
  split.
  - intros Hblank. rewrite saveMessage_run. cbn zeta.
    destruct Hblank as [H|H]; apply blank_falsy with (E := E) in H; rewrite H.
    + reflexivity.
    + rewrite orb_true_r. reflexivity.
  - intros text from Ht Hf Hnt Hnf. cbn zeta.
    rewrite (saveMessage_nonblank E message w text from Ht Hf Hnt Hnf). cbn zeta.
    split.
    + destruct (messageCreate E _ w) as [[d|e] w1]; reflexivity.
    + intros created w' Hc. rewrite Hc. reflexivity.
Qed.

Lemma saveMessage_validates_witness :
  saveMessage memEnv (Some (obj [("msg", VStr ""); ("msgFrom", VStr "User1")])) store0
    = Run (Ok (errorResp "Invalid message body")) store0 [] /\
  store_calls
    (calls (saveMessage memEnv
              (Some (obj [("msg", VStr " Hello "); ("msgFrom", VStr "User1");
                          ("msgDateTime", VStr "2024-06-04")])) store0))
    = [CMessageCreate
         (message_doc (VStr "Hello") (VStr "User1") (VDate (Some 1717459200000)))].
Proof.
  split.
  - apply (proj1 (saveMessage_validates store memEnv store0
                    (Some (obj [("msg", VStr ""); ("msgFrom", VStr "User1")])))).
    left. right. right. exists "". split; reflexivity.
  - apply (proj1 (proj2 (saveMessage_validates store memEnv store0
                    (Some (obj [("msg", VStr " Hello "); ("msgFrom", VStr "User1");
                                ("msgDateTime", VStr "2024-06-04")])))
                  " Hello " "User1" eq_refl eq_refl
                  ltac:(vm_compute; discriminate) ltac:(vm_compute; discriminate))).
Defined.

(** ** Listing the messages *)

Section InsertionSort.
Variable cmp : jsobj -> jsobj -> option Z.
Variable key : jsobj -> Z.
Variable valid : jsobj -> Prop.
Hypothesis compare_key :
  forall x y, valid x -> valid y -> sort_compare cmp x y = key x - key y.

Lemma sort_insert_perm (x : jsobj) (l : list jsobj) : sort_insert cmp x l ≡ₚ x :: l.
Proof.
  induction l as [|y l IH]; cbn; [reflexivity|].
  destruct (sort_compare cmp x y <=? 0); [reflexivity|].
  rewrite IH. apply perm_swap.
Qed.

Lemma array_sort_perm (l : list jsobj) : array_sort cmp l ≡ₚ l.
Proof.
  induction l as [|x l IH]; cbn; [reflexivity|].
  rewrite sort_insert_perm, IH. reflexivity.
Qed.

Lemma sort_insert_sorted (x : jsobj) (l : list jsobj) :
  valid x -> Forall valid l ->
  StronglySorted (fun a b => key a <= key b) l ->
  StronglySorted (fun a b => key a <= key b) (sort_insert cmp x l).
Proof.
  intros Hx Hl Hs. induction Hs as [|y l Hs IH Hy]; cbn.
  - repeat constructor.
  - apply Forall_cons in Hl as [Hvy Hl].
    rewrite (compare_key x y Hx Hvy).
    destruct (Z.leb_spec (key x - key y) 0) as [Hle|Hgt].
    + constructor; [constructor; assumption|].
      constructor; [lia|].
      eapply Forall_impl; [exact Hy|]. cbn. intros z Hz. lia.
    + constructor; [apply IH; assumption|].
      rewrite sort_insert_perm. constructor; [lia|exact Hy].
Qed.

Lemma array_sort_sorted (l : list jsobj) :
  Forall valid l -> StronglySorted (fun a b => key a <= key b) (array_sort cmp l).
Proof.
  induction l as [|x l IH]; cbn; intros Hl; [constructor|].
  apply Forall_cons in Hl as [Hx Hl].
  apply sort_insert_sorted; [assumption| |auto].
  rewrite array_sort_perm. exact Hl.
Qed.

Lemma sort_insert_stable (t : Z) (x : jsobj) (l : list jsobj) :
  valid x -> Forall valid l ->
  filter (fun m => key m = t) (sort_insert cmp x l)
  = filter (fun m => key m = t) (x :: l).
Proof.
  intros Hx Hl. induction Hl as [|y l Hy Hl IH]; cbn; [reflexivity|].
  rewrite (compare_key x y Hx Hy).
  destruct (Z.leb_spec (key x - key y) 0) as [Hle|Hgt]; [reflexivity|].
  rewrite (filter_cons _ y), IH, !filter_cons.
  destruct (decide (key y = t)), (decide (key x = t)); try reflexivity. lia.
Qed.

Lemma array_sort_stable (t : Z) (l : list jsobj) :
  Forall valid l ->
  filter (fun m => key m = t) (array_sort cmp l) = filter (fun m => key m = t) l.
Proof.
  induction l as [|x l IH]; cbn; intros Hl; [reflexivity|].
  apply Forall_cons in Hl as [Hx Hl].
  rewrite sort_insert_stable; [|assumption|rewrite array_sort_perm; exact Hl].
  rewrite !filter_cons, IH by assumption. reflexivity.
Qed.

End InsertionSort.

Section MessageOrder.
Context {W : Type} (E : Env W).

Lemma compare_time_key (x y : jsobj) :
  has_time E x -> has_time E y ->
  sort_compare (compare_time E) x y = time_key E x - time_key E y.
Proof.
  unfold has_time, time_key, sort_compare, compare_time, msg_time.
  intros [a Ha] [b Hb]. rewrite Ha, Hb. reflexivity.
Qed.

Lemma time_le_of_key (l : list jsobj) :
  Forall (has_time E) l ->
  StronglySorted (fun a b => time_key E a <= time_key E b) l ->
  StronglySorted (time_le E) l.
Proof.
  intros Hl Hs. induction Hs as [|x l Hs IH Hx]; [constructor|].
  apply Forall_cons in Hl as [Hvx Hl].
  constructor; [auto|].
  apply Forall_forall. intros y Hy.
  pose proof (proj1 (Forall_forall _ _) Hx y Hy) as Hle.
  pose proof (proj1 (Forall_forall _ _) Hl y Hy) as Hvy.
  unfold time_le, time_key, has_time in *.
  destruct Hvx as [a Ha], Hvy as [b Hb]. rewrite Ha, Hb in *. exact Hle.
Qed.

Lemma filter_time_key (t : Z) (l : list jsobj) :
  Forall (has_time E) l ->
  filter (fun m => msg_time E m = Some t) l = filter (fun m => time_key E m = t) l.
Proof.
  induction 1 as [|x l Hx Hl IH]; [reflexivity|].
  rewrite !filter_cons, IH.
  destruct Hx as [a Ha]. unfold time_key. rewrite Ha. cbn.
  destruct (decide (Some a = Some t)), (decide (a = t)); congruence.
Qed.

End MessageOrder.

Lemma stored_date_has_time (m : jsobj) : stored_date m -> has_time memEnv m.
Proof.
  intros [t Ht]. exists t. unfold msg_time, getTime, newDate. rewrite Ht. reflexivity.
Qed.

Lemma stored_time_key (x y : jsobj) :
  stored_date x -> stored_date y ->
  sort_compare by_stored_time x y = time_key memEnv x - time_key memEnv y.
Proof.
  intros [a Ha] [b Hb].
  unfold sort_compare, by_stored_time, stored_time, time_key, msg_time, getTime, newDate.
  rewrite Ha, Hb. reflexivity.
Qed.

(** C7. [getMessages] answers with every message the store fetched, each
    once, in ascending order of [msgDateTime], messages with equal times in
    the order they were fetched in (every fetched message carrying a valid
    time); fetched as [2024-06-05, 2024-06-04], the two messages of the test
    data come out as [2024-06-04, 2024-06-05]; and on the reference store,
    whose fetch sorts by time itself, messages with equal times come out in
    the order they were inserted in. *)
Theorem getMessages_sorted :
  (forall (W : Type) (E : Env W) (w : W),
      (forall fetched w',
          messageFind E w = (Ok fetched, w') ->
          Forall (fun m => is_Some (msg_time E m)) fetched ->
          exists sorted,
            res (getMessages E w) = Ok sorted /\
            sorted ≡ₚ fetched /\
            StronglySorted (time_le E) sorted /\
            forall t,
              filter (fun m => msg_time E m = Some t) sorted
              = filter (fun m => msg_time E m = Some t) fetched) /\
      (forall w',
          messageFind E w = (Ok [message2; message1], w') ->
          res (getMessages E w) = Ok [message1; message2])) /\
  (forall w : store,
      Forall stored_date (messages w) ->
      exists sorted,
        res (getMessages memEnv w) = Ok sorted /\
        sorted ≡ₚ messages w /\
        StronglySorted (time_le memEnv) sorted /\
        forall t,
          filter (fun m => msg_time memEnv m = Some t) sorted
          = filter (fun m => msg_time memEnv m = Some t) (messages w)).
Proof.
  assert (General : forall (W : Type) (E : Env W) (w : W) fetched w',
             messageFind E w = (Ok fetched, w') ->
             Forall (has_time E) fetched ->
             res (getMessages E w) = Ok (array_sort (compare_time E) fetched) /\
             array_sort (compare_time E) fetched ≡ₚ fetched /\
             StronglySorted (time_le E) (array_sort (compare_time E) fetched) /\
             forall t,
               filter (fun m => msg_time E m = Some t) (array_sort (compare_time E) fetched)
               = filter (fun m => msg_time E m = Some t) fetched).
  { intros W E w fetched w' Hfind Hvalid. rewrite getMessages_run, Hfind. cbn [res].
    assert (Hsorted_valid : Forall (has_time E) (array_sort (compare_time E) fetched)).
    { rewrite array_sort_perm. exact Hvalid. }
    split; [reflexivity|].
    split; [apply array_sort_perm|].
    split.
    - apply time_le_of_key; [exact Hsorted_valid|].
      apply (array_sort_sorted _ _ (has_time E) (compare_time_key E)). exact Hvalid.
    - intros t.
      rewrite (filter_time_key E t _ Hsorted_valid), (filter_time_key E t _ Hvalid).
      apply (array_sort_stable _ _ (has_time E) (compare_time_key E)). exact Hvalid. }
  split.
  - intros W E w. split.
    + intros fetched w' Hfind Hvalid.
      exists (array_sort (compare_time E) fetched).
      exact (General W E w fetched w' Hfind Hvalid).
    + intros w' Hfind. rewrite getMessages_run, Hfind. reflexivity.
  - intros w Hstored.
    set (fetched := array_sort by_stored_time (messages w)).
    assert (Hperm : fetched ≡ₚ messages w) by apply array_sort_perm.
    assert (Hvalid : Forall (has_time memEnv) (messages w)).
    { eapply Forall_impl; [exact Hstored|]. exact stored_date_has_time. }
    assert (Hfetched : Forall (has_time memEnv) fetched).
    { rewrite Hperm. exact Hvalid. }
    destruct (General store memEnv w fetched w eq_refl Hfetched)
      as [Hres [Hp [Hs Hstable]]].
    exists (array_sort (compare_time memEnv) fetched).
    split; [exact Hres|].
    split; [rewrite Hp; exact Hperm|].
    split; [exact Hs|].
    intros t. rewrite Hstable.
    rewrite (filter_time_key memEnv t _ Hfetched), (filter_time_key memEnv t _ Hvalid).
    apply (array_sort_stable _ _ stored_date stored_time_key). exact Hstored.
Qed.

Lemma getMessages_sorted_witness :
  res (getMessages (mockFind [message2; message1]) store0) = Ok [message1; message2] /\
  exists sorted,
    res (getMessages (mockFind [message2; message1; message2]) store0) = Ok sorted /\
    sorted ≡ₚ [message2; message1; message2] /\
    StronglySorted (time_le (mockFind [message2; message1; message2])) sorted /\
    forall t,
      filter (fun m => msg_time (mockFind [message2; message1; message2]) m = Some t)
        sorted
      = filter (fun m => msg_time (mockFind [message2; message1; message2]) m = Some t)
          [message2; message1; message2].
Proof.
  split.
  - exact (proj2 (proj1 getMessages_sorted store (mockFind [message2; message1]) store0)
             store0 eq_refl).
  - apply (proj1 (proj1 getMessages_sorted store
                    (mockFind [message2; message1; message2]) store0)
             [message2; message1; message2] store0 eq_refl).
    repeat constructor; eexists; reflexivity.
Defined.

(** C8. When the fetch raises, [getMessages] answers with the empty list and
    throws nothing, which is also its answer on a store that fetched no
    message: the two answers are equal. *)
Theorem getMessages_swallows_errors
    (W : Type) (E E' : Env W) (w w' w1 w1' : W) (e : string) :
  messageFind E w = (Throw e, w1) ->
  messageFind E' w' = (Ok [], w1') ->
  res (getMessages E w) = Ok [] /\
  res (getMessages E w) = res (getMessages E' w').
Proof.
  intros Hfail Hempty. rewrite !getMessages_run, Hfail, Hempty. split; reflexivity.
Qed.

Lemma getMessages_swallows_errors_witness :
  res (getMessages downEnv store0) = Ok [] /\
  res (getMessages downEnv store0) = res (getMessages memEnv store0).
Proof.
  exact (getMessages_swallows_errors store downEnv memEnv store0 store0 store0 store0
           "DB error" eq_refl eq_refl).
Defined.

(** ** The timestamp of a message *)

Section Timestamp.
Context {W : Type} (E : Env W).

Lemma normalize_run (incoming : jsobj) (w : W) :
  normalize E incoming w =
    Run (Ok (<["msg" := opt_toString_trim E (get incoming "msg")]>
               (<["msgFrom" := opt_toString_trim E (get incoming "msgFrom")]>
                  (<["msgDateTime" := computed_timestamp E w (Some incoming)]>
                     (<["_id" := get incoming "_id"]> ∅))))) w [].
Proof.
  unfold normalize, bind. rewrite timestamp_of_run. reflexivity.
Qed.

Lemma truthy_false_iff (v : jsval) :
  truthy v = false <->
  v = VUndef \/ v = VNull \/ v = VBool false \/ v = VNum 0 \/ v = VNaN \/ v = VStr "".
Proof.
  split.
  - destruct v as [| |b|n| |s|t|n]; cbn; intros H; try discriminate; auto 7.
    + subst. auto 7.
    + apply negb_false_iff, Z.eqb_eq in H. subst. auto 7.
    + apply negb_false_iff, String.eqb_eq in H. subst. auto 7.
  - intros [->|[->|[->|[->|[->| ->]]]]]; reflexivity.
Qed.

End Timestamp.

(** C9 (amended). The timestamp of a message is the process clock exactly
    when [msgDateTime] is missing or falsy, that is [undefined], [null],
    [false], [0], [NaN] or the empty string; every other supplied value goes
    through [new Date] and is used as it comes out, an Invalid Date
    included: [saveMessage] hands it to the store unchecked, and the route
    normalises with the same rule and passes the date on unchanged. *)
Theorem message_timestamp_rule (W : Type) (E : Env W) (w : W) (message : option jsobj) :
  let v := oget message "msgDateTime" in
  (truthy v = false <->
   v = VUndef \/ v = VNull \/ v = VBool false \/ v = VNum 0 \/ v = VNaN \/ v = VStr "") /\
  timestamp_of E message w
    = Run (Ok (if truthy v then newDate E v else VDate (Some (clock E w)))) w [] /\
  newDate E (VDate None) = VDate None /\
  (forall text from,
      oget message "msg" = VStr text ->
      oget message "msgFrom" = VStr from ->
      trim text <> "" ->
      trim from <> "" ->
      store_calls (calls (saveMessage E message w))
      = [CMessageCreate
           (message_doc (VStr (trim text)) (VStr (trim from))
              (if truthy v then newDate E v else VDate (Some (clock E w))))]) /\
  (forall incoming,
      message = Some incoming ->
      exists normalized,
        normalize E incoming w = Run (Ok normalized) w [] /\
        get normalized "msgDateTime"
        = (if truthy v then newDate E v else VDate (Some (clock E w))) /\
        forall w1,
          res (timestamp_of E (Some normalized) w1)
          = Ok (get normalized "msgDateTime")).
Proof.
  cbn zeta. split; [apply truthy_false_iff|].
  split; [apply timestamp_of_run|].
  split; [reflexivity|].
  split.
  - intros text from Ht Hf Hnt Hnf.
    rewrite (saveMessage_nonblank E message w text from Ht Hf Hnt Hnf). cbn zeta.
    fold (computed_timestamp E w message).
    destruct (messageCreate E _ w) as [[d|e] w1]; reflexivity.
  - intros incoming ->. eexists. split; [apply normalize_run|].
    split; [reflexivity|].
    intros w1. rewrite timestamp_of_run. cbn [res]. f_equal.
    unfold computed_timestamp at 1. unfold get at 1 2. cbn [oget].
    unfold get at 1 2.
    rewrite lookup_insert_ne by discriminate.
    rewrite lookup_insert_ne by discriminate.
    rewrite lookup_insert_eq. cbn [default].
    unfold computed_timestamp, newDate.
    destruct (truthy (oget (Some incoming) "msgDateTime")); reflexivity.
Qed.

Lemma message_timestamp_rule_witness :
  store_calls
    (calls (saveMessage memEnv
              (Some (obj [("msg", VStr "Hello"); ("msgFrom", VStr "User1");
                          ("msgDateTime", VDate None)])) store0))
  = [CMessageCreate (message_doc (VStr "Hello") (VStr "User1") (VDate None))].
Proof.
  exact (proj1 (proj2 (proj2 (proj2
           (message_timestamp_rule store memEnv store0
              (Some (obj [("msg", VStr "Hello"); ("msgFrom", VStr "User1");
                          ("msgDateTime", VDate None)]))))))
           "Hello" "User1" eq_refl eq_refl
           ltac:(vm_compute; discriminate) ltac:(vm_compute; discriminate)).
Defined.

(** C9, as stated, fails for a supplied value that is falsy: a caller that
    supplies the time value [0], or the empty string, has it replaced by the
    clock, in the service and in the route alike, where [new Date(0)] is the
    valid date of time [0] and [new Date("")] an Invalid Date. *)
Lemma message_timestamp_counterexample :
  let m := obj [("msg", VStr "Hello"); ("msgFrom", VStr "User1");
                ("msgDateTime", VNum 0)] in
  let m' := obj [("msg", VStr "Hello"); ("msgFrom", VStr "User1");
                 ("msgDateTime", VStr "")] in
  newDate memEnv (VNum 0) = VDate (Some 0) /\
  newDate memEnv (VStr "") = VDate None /\
  res (timestamp_of memEnv (Some m) store0) = Ok (VDate (Some 1717459200000)) /\
  res (timestamp_of memEnv (Some m') store0) = Ok (VDate (Some 1717459200000)) /\
  store_calls (calls (saveMessage memEnv (Some m) store0))
  = [CMessageCreate
       (message_doc (VStr "Hello") (VStr "User1") (VDate (Some 1717459200000)))] /\
  store_calls (calls (addMessageRoute memEnv (Build_AddMessageRequest (Some m)) store0))
  = [CMessageCreate
       (message_doc (VStr "Hello") (VStr "User1") (VDate (Some 1717459200000)))].
Proof. cbn zeta. repeat split; vm_compute; reflexivity. Qed.

(** ** The handlers of the user controller *)

Section Handlers.
Context {W : Type} (E : Env W).

Lemma bind_calls {A B} (m : M W A) (k : A -> M W B) (w : W) (a : A) :
  res (m w) = Ok a ->
  calls (bind m k w) = (calls (m w) ++ calls (k a (world (m w))))%list.
Proof. unfold bind. intros ->. reflexivity. Qed.

Lemma try_catch_calls {A} (m : M W A) (h : string -> M W A) (w : W) :
  exists rest, calls (try_catch m h w) = (calls (m w) ++ rest)%list.
Proof.
  unfold try_catch. destruct (res (m w)) as [a|e].
  - exists []. rewrite app_nil_r. reflexivity.
  - eexists. reflexivity.
Qed.

Lemma getUserByUsername_returns (username : jsval) (w : W) :
  exists o, res (getUserByUsername E username w) = Ok o.
Proof. rewrite getUserByUsername_run. run_cases E; eauto. Qed.

Lemma deleteUserByUsername_returns (username : jsval) (w : W) :
  exists o, res (deleteUserByUsername E username w) = Ok o.
Proof. rewrite deleteUserByUsername_run. run_cases E; eauto. Qed.

(** The gate of [createUser]: without a user name and a password that are
    strings and not blank, nothing reaches the store. *)
Lemma createUser_gate (req : UserRequest) (w : W) :
  isUserBodyValid req = false ->
  store_calls (calls (createUser E req w)) = [].
Proof.
  intros Hgate. unfold createUser, try_catch. rewrite Hgate. cbn [negb].
  unfold res_send, invoke.
  destruct (respond E 400 _ w) as [[[]|e] w1]; cbn [res world calls].
  - reflexivity.
  - destruct (respond E 500 _ w1) as [[[]|e'] w2]; reflexivity.
Qed.

Lemma res_send_ok (status : Z) (b : payload) (w w1 : W) :
  respond E status b w = (Ok tt, w1) ->
  res_send E status b w = Run (Ok tt) w1 [Entry (CRespond status b) false].
Proof. unfold res_send, invoke. intros ->. reflexivity. Qed.

End Handlers.

(** C10. [getUser] and [deleteUser] read the user name from the body of the
    request and never from the path parameters; when the body has no user
    name and the [400] is written, the handler goes on: it still calls
    [getUserByUsername], respectively [deleteUserByUsername], with the
    missing name, and the store receives the lookup, respectively the
    find-and-delete, for [undefined]. *)
Theorem handlers_fall_through (W : Type) (E : Env W) (w : W) (req : UserRequest) :
  (forall p,
      getUser E (Build_UserRequest p (body req)) w = getUser E req w /\
      deleteUser E (Build_UserRequest p (body req)) w = deleteUser E req w) /\
  (forall w1,
      falsy (oget (body req) "username") = true ->
      respond E 400 (PText "Invalid username is required") w = (Ok tt, w1) ->
      (exists rest,
          calls (getUser E req w)
          = (username_required
               :: calls (getUserByUsername E (oget (body req) "username") w1) ++ rest)%list) /\
      (exists rest,
          calls (deleteUser E req w)
          = (username_required
               :: calls (deleteUserByUsername E (oget (body req) "username") w1)
               ++ rest)%list)) /\
  (forall w1,
      oget (body req) "username" = VUndef ->
      respond E 400 (PText "Invalid username is required") w = (Ok tt, w1) ->
      store_calls (calls (getUser E req w)) = [CUserFindOne VUndef] /\
      store_calls (calls (deleteUser E req w)) = [CUserFindOneAndDelete VUndef]).
Proof.
  split; [intros p; split; reflexivity|].
  split.
  - intros w1 Hfalsy Hsend. split.
    + destruct (try_catch_calls
                  (let* _ := (if falsy (oget (body req) "username")
                              then res_send E 400 (PText "Invalid username is required")
                              else ret tt) in
                   let* resp := getUserByUsername E (oget (body req) "username") in
                   if has_key "error" resp
                   then res_send E 500 (PJson resp)
                   else res_send E 200 (PJson resp))
                  (fun _ => res_send E 500 (PText "Error when fetching user")) w)
        as [rest Hrest].
      unfold getUser. rewrite Hrest. clear Hrest.
      rewrite Hfalsy.
      rewrite (bind_calls _ _ w tt) by (rewrite (res_send_ok E _ _ _ _ Hsend); reflexivity).
      rewrite (res_send_ok E _ _ _ _ Hsend). cbn [calls world].
      destruct (getUserByUsername_returns E (oget (body req) "username") w1) as [o Ho].
      rewrite (bind_calls _ _ w1 o Ho).
      eexists. unfold username_required. cbn [app]. rewrite <- !app_assoc. reflexivity.
    + destruct (try_catch_calls
                  (let* _ := (if falsy (oget (body req) "username")
                              then res_send E 400 (PText "Invalid username is required")
                              else ret tt) in
                   let* resp := deleteUserByUsername E (oget (body req) "username") in
                   if has_key "error" resp
                   then res_send E 500 (PJson resp)
                   else res_send E 200 (PJson resp))
                  (fun _ => res_send E 500 (PText "Error when deleting user")) w)
        as [rest Hrest].
      unfold deleteUser. rewrite Hrest. clear Hrest.
      rewrite Hfalsy.
      rewrite (bind_calls _ _ w tt) by (rewrite (res_send_ok E _ _ _ _ Hsend); reflexivity).
      rewrite (res_send_ok E _ _ _ _ Hsend). cbn [calls world].
      destruct (deleteUserByUsername_returns E (oget (body req) "username") w1) as [o Ho].
      rewrite (bind_calls _ _ w1 o Ho).
      eexists. unfold username_required. cbn [app]. rewrite <- !app_assoc. reflexivity.
  - intros w1 Hundef Hsend. split.
    + unfold getUser, try_catch, bind. rewrite Hundef. cbn [falsy truthy negb].
      rewrite (res_send_ok E _ _ _ _ Hsend). cbn [res world calls].
      rewrite getUserByUsername_run. cbn [opt_trim].
      unfold res_send, invoke.
      destruct (userFindOne E VUndef w1) as [[[d|]|e] w2]; cbn [res world calls];
        repeat match goal with
          | |- context [if ?b then _ else _] => destruct b
          | |- context [respond E ?s ?b ?w] =>
              destruct (respond E s b w) as [[[]|?] ?]; cbn [res world calls]
          end; reflexivity.
    + unfold deleteUser, try_catch, bind. rewrite Hundef. cbn [falsy truthy negb].
      rewrite (res_send_ok E _ _ _ _ Hsend). cbn [res world calls].
      rewrite deleteUserByUsername_run. cbn [opt_trim].
      unfold res_send, invoke.
      destruct (userFindOneAndDelete E VUndef w1) as [[[d|]|e] w2]; cbn [res world calls];
        repeat match goal with
          | |- context [if ?b then _ else _] => destruct b
          | |- context [respond E ?s ?b ?w] =>
              destruct (respond E s b w) as [[[]|?] ?]; cbn [res world calls]
          end; reflexivity.
Qed.

Lemma handlers_fall_through_witness :
  store_calls (calls (getUser memEnv request_without_body_name store1))
    = [CUserFindOne VUndef] /\
  store_calls (calls (deleteUser memEnv request_without_body_name store1))
    = [CUserFindOneAndDelete VUndef].
Proof.
  exact (proj2 (proj2 (handlers_fall_through store memEnv store1
                         request_without_body_name))
           (Store [user1] [] 2 1717459200000
              [(400, PText "Invalid username is required")] [])
           eq_refl eq_refl).
Defined.

(** * Further properties of the services *)

Section ServiceFacts.
Context {W : Type} (E : Env W).

Lemma saveUser_returns (user : option jsobj) (w : W) :
  exists o, res (saveUser E user w) = Ok o.
Proof. rewrite saveUser_run. run_cases E; eauto. Qed.

Lemma loginUser_returns (c : option jsobj) (w : W) :
  exists o, res (loginUser E c w) = Ok o.
Proof. rewrite loginUser_run. run_cases E; eauto. Qed.

Lemma updateUser_returns (username : jsval) (updates : option jsobj) (w : W) :
  exists o, res (updateUser E username updates w) = Ok o.
Proof. rewrite updateUser_run. run_cases E; eauto. Qed.

Lemma saveMessage_returns (message : option jsobj) (w : W) :
  exists o, res (saveMessage E message w) = Ok o.
Proof.
  rewrite saveMessage_run. cbn zeta.
  destruct (falsy _ || falsy _); [eauto|].
  destruct (messageCreate E _ w) as [[d|e] w']; eauto.
Qed.

Lemma Ok_inj {A} (a b : A) : Ok a = Ok b -> a = b.
Proof. intros H. exact (f_equal (fun o => match o with Ok x => x | Throw _ => a end) H). Qed.



End ServiceFacts.

(** X1. The message service contains its failures as the user service
    does: [saveMessage] always returns, with ["Failed to save message"] when
    the [create] raised, whatever the exception said; [getMessages] always
    returns, with the empty list when the fetch raised. *)
Theorem message_service_contains_failures (W : Type) (E : Env W) :
  (forall message, contains_failures (saveMessage E message) "Failed to save message") /\
  (forall w, exists l,
      res (getMessages E w) = Ok l /\
      (some_raised (calls (getMessages E w)) = true -> l = [])).
Proof.
  split.
  - intros message w. rewrite saveMessage_run. cbn zeta.
    destruct (falsy _ || falsy _).
    + eexists. split; [reflexivity|]. cbn. discriminate.
    + destruct (messageCreate E _ w) as [[d|e] w'];
        eexists; (split; [reflexivity|]); cbn; congruence.
  - intros w. rewrite getMessages_run.
    destruct (messageFind E w) as [[l|e] w'];
      eexists; (split; [reflexivity|]); cbn; congruence.
Qed.




(** X4. [saveUser] and [loginUser] read the user name and the password of
    their argument and nothing else: a supplied [dateJoined] or [_id] is
    ignored.  When [saveUser] calls [create], the lookup before it resolved
    to no record, and the document is the trimmed user name and password
    with [dateJoined] read from the clock. *)
Theorem saveUser_reads_two_fields
    (W : Type) (E : Env W) (w : W) (user user' : option jsobj) :
  oget user "username" = oget user' "username" ->
  oget user "password" = oget user' "password" ->
  saveUser E user w = saveUser E user' w /\
  loginUser E user w = loginUser E user' w /\
  (forall doc r,
      In (Entry (CUserCreate doc) r) (calls (saveUser E user w)) ->
      exists username password w',
        opt_trim (oget user "username") = Ok username /\
        opt_trim (oget user "password") = Ok password /\
        userFindOne E username w = (Ok None, w') /\
        doc = new_user_doc username password (clock E w')).
Proof.
  intros Hu Hp. rewrite !saveUser_run, !loginUser_run, Hu, Hp.
  split; [reflexivity|]. split; [reflexivity|].
  intros doc r.
  destruct (opt_trim (oget user' "username")) as [username|e]; cbn; [|tauto].
  destruct (opt_trim (oget user' "password")) as [password|e]; cbn; [|tauto].
  destruct (userFindOne E username w) as [[[d|]|e] w'] eqn:Hfind; cbn.
  - intros [H|[]]. discriminate.
  - destruct (userCreate E _ w') as [[d|e] w'']; cbn;
      (intros [H|[H|[]]]; [discriminate|]);
      injection H as <- _; exists username, password, w'; auto.
  - intros [H|[]]. discriminate.
Qed.

Lemma saveUser_reads_two_fields_witness :
  saveUser memEnv
    (Some (obj [("username", VStr "user1"); ("password", VStr "password");
                ("dateJoined", VDate (Some 1733184000000)); ("_id", VId 77)])) store0
  = saveUser memEnv (new_user "user1" "password") store0.
Proof.
  exact (proj1 (saveUser_reads_two_fields store memEnv store0
                  (Some (obj [("username", VStr "user1"); ("password", VStr "password");
                              ("dateJoined", VDate (Some 1733184000000));
                              ("_id", VId 77)]))
                  (new_user "user1" "password") eq_refl eq_refl)).
Defined.

(** X5. [loginUser] compares the stored password, as it is, with the trimmed
    supplied one: it succeeds with the safe projection exactly when they are
    the same string, answers an unknown user name and a wrong password
    alike, and a stored password with white space around it matches no
    input. *)
Theorem loginUser_compares_exactly
    (W : Type) (E : Env W) (w w' : W) (c : option jsobj) (u p : string)
    (found : option jsobj) :
  oget c "username" = VStr u ->
  oget c "password" = VStr p ->
  userFindOne E (VStr (trim u)) w = (Ok found, w') ->
  match found with
  | None => res (loginUser E c w) = Ok (errorResp "Invalid credentials")
  | Some d =>
      (get d "password" = VStr (trim p) -> res (loginUser E c w) = Ok (toSafeUser d)) /\
      (get d "password" <> VStr (trim p) ->
       res (loginUser E c w) = Ok (errorResp "Invalid credentials")) /\
      (forall s, get d "password" = VStr s -> trim s <> s ->
                 res (loginUser E c w) = Ok (errorResp "Invalid credentials"))
  end.
Proof.
  intros Hu Hp Hfind. rewrite loginUser_run, Hu, Hp. cbn [opt_trim]. rewrite Hfind.
  destruct found as [d|]; [|reflexivity]. cbn [res].
  assert (Hsame : get d "password" = VStr (trim p) ->
                  password_differs d (VStr (trim p)) = false).
  { intros H. unfold password_differs. apply negb_false_iff, bool_decide_eq_true. exact H. }
  assert (Hdiff : get d "password" <> VStr (trim p) ->
                  password_differs d (VStr (trim p)) = true).
  { intros H. unfold password_differs. apply negb_true_iff, bool_decide_eq_false. exact H. }
  split; [|split].
  - intros H. rewrite (Hsame H). reflexivity.
  - intros H. rewrite (Hdiff H). reflexivity.
  - intros s Hs Hns. rewrite Hdiff; [reflexivity|].
    rewrite Hs. intros Heq. injection Heq as ->.
    apply Hns. apply trim_idempotent.
Qed.

Lemma loginUser_compares_exactly_witness :
  res (loginUser memEnv (credentials "user1" " padded ")
         (Store [<["password" := VStr " padded "]> user1] [] 2 0 [] []))
  = Ok (errorResp "Invalid credentials").
Proof.
  refine (proj2 (proj2 (loginUser_compares_exactly store memEnv
                          (Store [<["password" := VStr " padded "]> user1] [] 2 0 [] [])
                          (Store [<["password" := VStr " padded "]> user1] [] 2 0 [] [])
                          (credentials "user1" " padded ") "user1" " padded "
                          (Some (<["password" := VStr " padded "]> user1))
                          eq_refl eq_refl eq_refl))
            " padded " eq_refl _).
  vm_compute. discriminate.
Defined.

(** X6. On a store whose lookup changes nothing, [getUserByUsername] and
    [loginUser] leave the world as it was, and so does a [saveUser] that
    answers ["Username already exists"], whose one call is the lookup. *)
Theorem lookups_leave_the_store (W : Type) (E : Env W) (w : W) :
  (forall q w0, snd (userFindOne E q w0) = w0) ->
  (forall username, world (getUserByUsername E username w) = w) /\
  (forall c, world (loginUser E c w) = w) /\
  (forall user,
      res (saveUser E user w) = Ok (errorResp "Username already exists") ->
      world (saveUser E user w) = w /\
      exists username,
        calls (saveUser E user w) = [Entry (CUserFindOne username) false]).
Proof.
  intros Hread. split; [|split].
  - intros username. rewrite getUserByUsername_run.
    destruct (opt_trim username) as [u|e]; [|reflexivity].
    pose proof (Hread u w) as H.
    destruct (userFindOne E u w) as [[[d|]|e] w']; exact H.
  - intros c. rewrite loginUser_run.
    destruct (opt_trim (oget c "username")) as [u|e]; [|reflexivity].
    destruct (opt_trim (oget c "password")) as [p|e]; [|reflexivity].
    pose proof (Hread u w) as H.
    destruct (userFindOne E u w) as [[[d|]|e] w']; exact H.
  - intros user. rewrite saveUser_run.
    destruct (opt_trim (oget user "username")) as [u|e]; cbn;
      [|intros H; apply Ok_inj, errorResp_inj in H; discriminate].
    destruct (opt_trim (oget user "password")) as [p|e]; cbn;
      [|intros H; apply Ok_inj, errorResp_inj in H; discriminate].
    pose proof (Hread u w) as Hw.
    destruct (userFindOne E u w) as [[[d|]|e] w']; cbn in Hw |- *; subst w'.
    + intros _. split; [reflexivity|]. exists u. reflexivity.
    + destruct (userCreate E _ w) as [[d|e] w'']; cbn; intros H; apply Ok_inj in H.
      * exfalso. exact (toSafeUser_not_error _ _ H).
      * apply errorResp_inj in H. discriminate.
    + intros H. apply Ok_inj, errorResp_inj in H. discriminate.
Qed.

Lemma lookups_leave_the_store_witness :
  world (saveUser memEnv (new_user "user1" "x") store1) = store1.
Proof.
  exact (proj1 (proj2 (proj2 (lookups_leave_the_store store memEnv store1
                                (fun q w0 => eq_refl)))
                  (new_user "user1" "x") eq_refl)).
Defined.

(** * Further properties of the handlers *)

Section HandlerFacts.
Context {W : Type} (E : Env W).
Hypothesis Hresp : responds E.

Lemma bind_ret {A B} (a : A) (k : A -> M W B) (w : W) : bind (ret a) k w = k a w.
Proof. unfold bind, ret. cbn. destruct (k a w). reflexivity. Qed.

Lemma bind_now {B} (k : jsval -> M W B) (w : W) :
  bind (newDateNow E) k w = k (VDate (Some (clock E w))) w.
Proof. unfold bind, newDateNow. cbn. destruct (k _ w). reflexivity. Qed.

Lemma bind_run {A B} (m : M W A) (k : A -> M W B) (w w1 : W) (a : A) (l : list entry) :
  m w = Run (Ok a) w1 l ->
  bind m k w = Run (res (k a w1)) (world (k a w1)) (l ++ calls (k a w1)).
Proof. unfold bind. intros ->. reflexivity. Qed.

Lemma try_catch_ok {A} (m : M W A) (h : string -> M W A) (w w1 : W) (a : A)
    (l : list entry) :
  m w = Run (Ok a) w1 l -> try_catch m h w = Run (Ok a) w1 l.
Proof. unfold try_catch. intros ->. reflexivity. Qed.

Lemma res_send_run (status : Z) (b : payload) (w : W) :
  exists w', res_send E status b w = Run (Ok tt) w' [Entry (CRespond status b) false].
Proof.
  destruct (Hresp status b w) as [w' Hw]. exists w'.
  unfold res_send, invoke. rewrite Hw. reflexivity.
Qed.

(** The tail the handlers share: await the service, then answer [500] with
    an error result and the success status with any other. *)
Lemma answer_run (m : M W jsobj) (success : Z) (w : W) (resp : jsobj) :
  res (m w) = Ok resp ->
  exists w',
    bind m (fun resp => if has_key "error" resp
                        then res_send E 500 (PJson resp)
                        else res_send E success (PJson resp)) w
    = Run (Ok tt) w'
        (calls (m w) ++ [Entry (CRespond (status_for success resp) (PJson resp)) false]).
Proof.
  intros Hres. unfold bind, status_for. rewrite Hres.
  destruct (has_key "error" resp).
  - destruct (res_send_run 500 (PJson resp) (world (m w))) as [w' ->]. eauto.
  - destruct (res_send_run success (PJson resp) (world (m w))) as [w' ->]. eauto.
Qed.

Lemma nonblank_string_inv (v : jsval) :
  nonblank_string v = true -> exists s, v = VStr s /\ trim s <> "".
Proof.
  destruct v as [| |b|n| |s|t|n]; cbn; try discriminate.
  intros H. exists s. split; [reflexivity|].
  apply negb_true_iff in H. intros Hs. rewrite Hs in H. discriminate.
Qed.

Lemma blank_opt_trim_falsy (v : jsval) :
  blank v -> exists t, opt_trim v = Ok t /\ falsy t = true.
Proof.
  intros [->|[->|[s [-> Hs]]]]; cbn; eexists; (split; [reflexivity|]).
  - reflexivity.
  - reflexivity.
  - rewrite Hs. reflexivity.
Qed.

Lemma nonblank_falsy (s : string) : trim s <> "" -> falsy (VStr (trim s)) = false.
Proof.
  intros Hs. unfold falsy, truthy.
  destruct (String.eqb_spec (trim s) ""); [contradiction|reflexivity].
Qed.

End HandlerFacts.

(** X7. [createUser] answers an invalid body (a user name or password that
    is missing, not a string, or blank) with [400] and the JSON error, and
    calls nothing else.  A valid body goes to [saveUser] as the trimmed user
    name and password with the clock as [dateJoined]; the answer is the
    result of the service, with [500] when it is an error and [201]
    otherwise, and it is the one response written. *)
Theorem createUser_answers (W : Type) (E : Env W) (w : W) (req : UserRequest) :
  responds E ->
  if isUserBodyValid req
  then
    exists u p resp w',
      oget (body req) "username" = VStr u /\ trim u <> "" /\
      oget (body req) "password" = VStr p /\ trim p <> "" /\
      let user := new_user_doc (VStr (trim u)) (VStr (trim p)) (clock E w) in
      res (saveUser E (Some user) w) = Ok resp /\
      createUser E req w
      = Run (Ok tt) w'
          (calls (saveUser E (Some user) w)
             ++ [Entry (CRespond (status_for 201 resp) (PJson resp)) false])
  else
    exists w',
      createUser E req w
      = Run (Ok tt) w'
          [Entry (CRespond 400 (PJson (errorResp "username and password are required")))
             false].
Proof.
  intros Hresp. destruct (isUserBodyValid req) eqn:Hvalid.
  - unfold isUserBodyValid in Hvalid. cbn zeta in Hvalid.
    apply andb_prop in Hvalid as [Hu Hp].
    pose proof Hu as Hu'. pose proof Hp as Hp'.
    apply nonblank_string_inv in Hu as [u [Hu Hnu]].
    apply nonblank_string_inv in Hp as [p [Hp Hnp]].
    destruct (saveUser_returns E
                (Some (new_user_doc (VStr (trim u)) (VStr (trim p)) (clock E w))) w)
      as [resp Hres].
    destruct (answer_run E Hresp
                (saveUser E (Some (new_user_doc (VStr (trim u)) (VStr (trim p))
                                     (clock E w)))) 201 w resp Hres) as [w' Hrun].
    exists u, p, resp, w'. do 4 (split; [assumption|]). cbn zeta.
    split; [exact Hres|].
    unfold createUser, isUserBodyValid. cbn zeta. rewrite Hu', Hp'. cbn [andb negb].
    rewrite Hu, Hp. cbn [opt_trim lift].
    apply try_catch_ok. rewrite !bind_ret, bind_now. exact Hrun.
  - destruct (res_send_run E Hresp 400
                (PJson (errorResp "username and password are required")) w) as [w' Hrun].
    exists w'. unfold createUser. rewrite Hvalid. cbn [negb].
    apply try_catch_ok. exact Hrun.
Qed.

Lemma createUser_answers_witness :
  responses (calls (createUser openEnv
                      (request [] [("username", VStr " alice "); ("password", VStr "secret")])
                      store0))
  = [(201, PJson (obj [("_id", VId 1); ("username", VStr "alice");
                       ("dateJoined", VDate (Some 1717459200000))]))] /\
  exists w',
    createUser openEnv (request [] [("username", VStr "alice")]) store0
    = Run (Ok tt) w'
        [Entry (CRespond 400 (PJson (errorResp "username and password are required")))
           false].
Proof.
  split.
  - vm_compute. reflexivity.
  - exact (createUser_answers store openEnv store0
             (request [] [("username", VStr "alice")])
             (fun status b w => ex_intro _ _ eq_refl)).
Defined.

(** X8. [userLogin] answers an invalid body with [400] and the JSON error
    and never reaches the store; a valid body goes to [loginUser] as the
    trimmed credentials, and the one response is the result of the service,
    [500] when it is an error and [200] otherwise. *)
Theorem userLogin_answers (W : Type) (E : Env W) (w : W) (req : UserRequest) :
  responds E ->
  if isUserBodyValid req
  then
    exists u p resp w',
      oget (body req) "username" = VStr u /\ trim u <> "" /\
      oget (body req) "password" = VStr p /\ trim p <> "" /\
      let creds : jsobj :=
        <["username" := VStr (trim u)]> (<["password" := VStr (trim p)]> ∅) in
      res (loginUser E (Some creds) w) = Ok resp /\
      userLogin E req w
      = Run (Ok tt) w'
          (calls (loginUser E (Some creds) w)
             ++ [Entry (CRespond (status_for 200 resp) (PJson resp)) false])
  else
    exists w',
      userLogin E req w
      = Run (Ok tt) w'
          [Entry (CRespond 400 (PJson (errorResp "username and password are required")))
             false].
Proof.
  intros Hresp. destruct (isUserBodyValid req) eqn:Hvalid.
  - unfold isUserBodyValid in Hvalid. cbn zeta in Hvalid.
    apply andb_prop in Hvalid as [Hu Hp].
    pose proof Hu as Hu'. pose proof Hp as Hp'.
    apply nonblank_string_inv in Hu as [u [Hu Hnu]].
    apply nonblank_string_inv in Hp as [p [Hp Hnp]].
    destruct (loginUser_returns E
                (Some (<["username" := VStr (trim u)]> (<["password" := VStr (trim p)]> ∅)))
                w) as [resp Hres].
    destruct (answer_run E Hresp
                (loginUser E
                   (Some (<["username" := VStr (trim u)]>
                            (<["password" := VStr (trim p)]> ∅)))) 200 w resp Hres)
      as [w' Hrun].
    exists u, p, resp, w'. do 4 (split; [assumption|]). cbn zeta.
    split; [exact Hres|].
    unfold userLogin, isUserBodyValid. cbn zeta. rewrite Hu', Hp'. cbn [andb negb].
    rewrite Hu, Hp. cbn [opt_trim lift].
    apply try_catch_ok. rewrite !bind_ret. exact Hrun.
  - destruct (res_send_run E Hresp 400
                (PJson (errorResp "username and password are required")) w) as [w' Hrun].
    exists w'. unfold userLogin. rewrite Hvalid. cbn [negb].
    apply try_catch_ok. exact Hrun.
Qed.

Lemma userLogin_answers_witness :
  exists w',
    userLogin openEnv (request [] [("username", VStr "   "); ("password", VStr "x")])
      store1
    = Run (Ok tt) w'
        [Entry (CRespond 400 (PJson (errorResp "username and password are required")))
           false].
Proof.
  exact (userLogin_answers store openEnv store1
           (request [] [("username", VStr "   "); ("password", VStr "x")])
           (fun status b w => ex_intro _ _ eq_refl)).
Defined.

(** X9. [resetPassword] takes the user name from the path parameters and
    the new password from the body, and nothing else from the request.  A
    missing or blank user name is answered [400] and a missing or blank
    password [400], each with its own JSON error, without a call to the
    store.  Otherwise the store receives
    one find-and-update, filtered by the trimmed name, whose patch is the
    trimmed password alone, and the one response is the result of
    [updateUser], [500] when it is an error and [200] otherwise. *)
Theorem resetPassword_answers (W : Type) (E : Env W) (w : W) (req : UserRequest) :
  responds E ->
  (forall b,
      oget b "password" = oget (body req) "password" ->
      resetPassword E (Build_UserRequest (params req) b) w = resetPassword E req w) /\
  (forall newPwd,
      blank (get (params req) "username") ->
      opt_trim (oget (body req) "password") = Ok newPwd ->
      exists w',
        resetPassword E req w
        = Run (Ok tt) w'
            [Entry (CRespond 400 (PJson (errorResp "username is required"))) false]) /\
  (forall u,
      get (params req) "username" = VStr u ->
      trim u <> "" ->
      blank (oget (body req) "password") ->
      exists w',
        resetPassword E req w
        = Run (Ok tt) w'
            [Entry (CRespond 400 (PJson (errorResp "new password is required"))) false]) /\
  (forall u p,
      get (params req) "username" = VStr u ->
      trim u <> "" ->
      oget (body req) "password" = VStr p ->
      trim p <> "" ->
      let patch : jsobj := <["password" := VStr (trim p)]> ∅ in
      exists resp w',
        res (updateUser E (VStr (trim u)) (Some patch) w) = Ok resp /\
        store_calls (calls (updateUser E (VStr (trim u)) (Some patch) w))
        = [CUserFindOneAndUpdate (VStr (trim u)) patch] /\
        resetPassword E req w
        = Run (Ok tt) w'
            (calls (updateUser E (VStr (trim u)) (Some patch) w)
               ++ [Entry (CRespond (status_for 200 resp) (PJson resp)) false])).
Proof.
  intros Hresp. split; [|split; [|split]].
  - intros b Hb. unfold resetPassword. cbn [params body]. rewrite Hb. reflexivity.
  - intros newPwd Hblank Hpwd.
    destruct (blank_opt_trim_falsy _ Hblank) as [t [Ht Hfalsy]].
    destruct (res_send_run E Hresp 400 (PJson (errorResp "username is required")) w)
      as [w' Hrun].
    exists w'. unfold resetPassword. rewrite Ht, Hpwd. cbn [lift].
    apply try_catch_ok. rewrite !bind_ret, Hfalsy. exact Hrun.
  - intros u Hu Hnu Hblank.
    destruct (blank_opt_trim_falsy _ Hblank) as [t [Ht Hfalsy]].
    destruct (res_send_run E Hresp 400 (PJson (errorResp "new password is required")) w)
      as [w' Hrun].
    exists w'. unfold resetPassword. rewrite Hu, Ht. cbn [opt_trim lift].
    apply try_catch_ok. rewrite !bind_ret, (nonblank_falsy u Hnu), Hfalsy. exact Hrun.
  - intros u p Hu Hnu Hp Hnp. cbn zeta.
    destruct (updateUser_returns E (VStr (trim u))
                (Some (<["password" := VStr (trim p)]> ∅)) w) as [resp Hres].
    destruct (answer_run E Hresp
                (updateUser E (VStr (trim u)) (Some (<["password" := VStr (trim p)]> ∅)))
                200 w resp Hres) as [w' Hrun].
    exists resp, w'. split; [exact Hres|]. split.
    + rewrite updateUser_run. cbn [opt_trim]. cbn zeta.
      assert (Hpatch : build_patch (<["password" := VStr (trim p)]> ∅)
                       = <["password" := VStr (trim p)]> ∅).
      { apply map_eq. intros k. rewrite build_patch_lookup. unfold trimmed_field, get.
        destruct (decide (k = "username")) as [->|Hk1].
        - rewrite lookup_insert_ne by discriminate. rewrite lookup_empty. reflexivity.
        - destruct (decide (k = "password")) as [->|Hk2].
          + rewrite !lookup_insert_eq. cbn. rewrite trim_idempotent. reflexivity.
          + rewrite lookup_insert_ne by congruence. rewrite lookup_empty. reflexivity. }
      rewrite Hpatch, trim_idempotent.
      destruct (userFindOneAndUpdate E _ _ w) as [[[d|]|e] w1]; reflexivity.
    + unfold resetPassword. rewrite Hu, Hp. cbn [opt_trim lift].
      apply try_catch_ok.
      rewrite !bind_ret, (nonblank_falsy u Hnu), (nonblank_falsy p Hnp). exact Hrun.
Qed.

Lemma resetPassword_answers_witness :
  exists resp w',
    res (updateUser openEnv (VStr (trim " user1 "))
           (Some (<["password" := VStr (trim " new ")]> ∅)) store1) = Ok resp /\
    store_calls (calls (updateUser openEnv (VStr (trim " user1 "))
                          (Some (<["password" := VStr (trim " new ")]> ∅)) store1))
    = [CUserFindOneAndUpdate (VStr (trim " user1 ")) (<["password" := VStr (trim " new ")]> ∅)] /\
    resetPassword openEnv
      (request [("username", VStr " user1 ")]
         [("username", VStr "someone else"); ("password", VStr " new ")]) store1
    = Run (Ok tt) w'
        (calls (updateUser openEnv (VStr (trim " user1 "))
                  (Some (<["password" := VStr (trim " new ")]> ∅)) store1)
           ++ [Entry (CRespond (status_for 200 resp) (PJson resp)) false]).
Proof.
  exact (proj2 (proj2 (proj2
           (resetPassword_answers store openEnv store1
              (request [("username", VStr " user1 ")]
                 [("username", VStr "someone else"); ("password", VStr " new ")])
              (fun status b w => ex_intro _ _ eq_refl))))
           " user1 " " new " eq_refl ltac:(vm_compute; discriminate)
           eq_refl ltac:(vm_compute; discriminate)).
Defined.



(** X11. [getMessagesRoute] answers [200] with the list [getMessages]
    returned, in one response; when the fetch raised, that is [200] with the
    empty list, and never the [500] of its own catch block. *)
Theorem getMessagesRoute_answers (W : Type) (E : Env W) (w : W) :
  responds E ->
  exists l w',
    res (getMessages E w) = Ok l /\
    getMessagesRoute E w
    = Run (Ok tt) w'
        (calls (getMessages E w) ++ [Entry (CRespond 200 (PJsonList l)) false]) /\
    (forall e w1, messageFind E w = (Throw e, w1) -> l = []).
Proof.
  intros Hresp.
  destruct (getMessages E w) as [r w1 l1] eqn:Hget.
  assert (Hr : exists l, r = Ok l /\
                         forall e w2, messageFind E w = (Throw e, w2) -> l = []).
  { rewrite getMessages_run in Hget.
    destruct (messageFind E w) as [[l|e] w2]; injection Hget as <- _ _.
    - exists (array_sort (compare_time E) l). split; [reflexivity|]. discriminate.
    - exists []. split; reflexivity. }
  destruct Hr as [l [-> Hl]].
  destruct (res_send_run E Hresp 200 (PJsonList l) w1) as [w' Hrun].
  exists l, w'. cbn [res calls]. split; [reflexivity|]. split; [|exact Hl].
  unfold getMessagesRoute. apply try_catch_ok.
  rewrite (bind_run _ _ _ _ _ _ Hget), Hrun. reflexivity.
Qed.

Lemma getMessagesRoute_answers_witness :
  exists l w',
    res (getMessages openDownEnv store0) = Ok l /\
    getMessagesRoute openDownEnv store0
    = Run (Ok tt) w'
        (calls (getMessages openDownEnv store0)
           ++ [Entry (CRespond 200 (PJsonList l)) false]) /\
    (forall e w1, messageFind openDownEnv store0 = (Throw e, w1) -> l = []).
Proof.
  exact (getMessagesRoute_answers store openDownEnv store0
           (fun status b w => ex_intro _ _ eq_refl)).
Defined.

Section RouteFacts.
Context {W : Type} (E : Env W).

(** The message [addMessageRoute] hands to [saveMessage]. *)
Lemma normalized_lookup (incoming : jsobj) (w : W) :
  exists normalized,
    normalize E incoming w = Run (Ok normalized) w [] /\
    oget (Some normalized) "msg" = opt_toString_trim E (get incoming "msg") /\
    oget (Some normalized) "msgFrom" = opt_toString_trim E (get incoming "msgFrom") /\
    computed_timestamp E w (Some normalized) = computed_timestamp E w (Some incoming).
Proof.
  eexists. split; [apply normalize_run|].
  split; [reflexivity|]. split; [reflexivity|].
  unfold computed_timestamp at 1. cbn [oget]. unfold get at 1 2.
  rewrite lookup_insert_ne by discriminate.
  rewrite lookup_insert_ne by discriminate.
  rewrite lookup_insert_eq. cbn [default].
  unfold computed_timestamp, newDate.
  destruct (truthy (oget (Some incoming) "msgDateTime")); reflexivity.
Qed.

Lemma blank_not_valid (v : jsval) :
  blank v -> nonblank_string (opt_toString_trim E v) = false.
Proof.
  intros [->|[->|[s [-> Hs]]]]; try reflexivity.
  unfold opt_toString_trim, toString, nonblank_string.
  rewrite trim_idempotent, Hs. reflexivity.
Qed.

Lemma nonblank_valid (s : string) :
  trim s <> "" -> nonblank_string (opt_toString_trim E (VStr s)) = true.
Proof.
  intros Hs. unfold opt_toString_trim, toString, nonblank_string.
  rewrite trim_idempotent.
  destruct (String.eqb_spec (trim s) ""); [contradiction|reflexivity].
Qed.

Lemma bind_throw {A B} (m : M W A) (k : A -> M W B) (w w1 : W) (e : string)
    (l : list entry) :
  m w = Run (Throw e) w1 l -> bind m k w = Run (Throw e) w1 l.
Proof. unfold bind. intros ->. reflexivity. Qed.

Lemma try_catch_throw {A} (m : M W A) (h : string -> M W A) (w w1 : W) (e : string)
    (l : list entry) :
  m w = Run (Throw e) w1 l ->
  try_catch m h w = Run (res (h e w1)) (world (h e w1)) (l ++ calls (h e w1)).
Proof. unfold try_catch. intros ->. reflexivity. Qed.

End RouteFacts.

(** X12. [addMessageRoute] answers a request without [messageToAdd] with
    [400] and ["Invalid request"], and a message whose text or author is
    missing or blank with [400] and ["Invalid message body"], in both cases
    without touching the store or the socket.  Otherwise the store receives
    one [create] with the trimmed text and author and the computed
    timestamp.  When it raises the answer is [500] with the error of the
    service and nothing is emitted; when it resolves the record is emitted
    as [messageUpdate] and answered with [200]; and when that emit raises,
    the answer is [500], although the record was created. *)
Theorem addMessageRoute_answers (W : Type) (E : Env W) (w : W) (req : AddMessageRequest) :
  responds E ->
  match messageToAdd req with
  | None =>
      exists w',
        addMessageRoute E req w
        = Run (Ok tt) w' [Entry (CRespond 400 (PText "Invalid request")) false]
  | Some incoming =>
      (blank (get incoming "msg") \/ blank (get incoming "msgFrom") ->
       exists w',
         addMessageRoute E req w
         = Run (Ok tt) w' [Entry (CRespond 400 (PText "Invalid message body")) false]) /\
      (forall text from,
          get incoming "msg" = VStr text ->
          get incoming "msgFrom" = VStr from ->
          trim text <> "" ->
          trim from <> "" ->
          let doc := message_doc (VStr (trim text)) (VStr (trim from))
                       (computed_timestamp E w (Some incoming)) in
          match messageCreate E doc w with
          | (Throw _, w1) =>
              exists w',
                addMessageRoute E req w
                = Run (Ok tt) w'
                    [Entry (CMessageCreate doc) true;
                     Entry (CRespond 500 (PJson (errorResp "Failed to save message")))
                       false]
          | (Ok created, w1) =>
              has_key "error" created = false ->
              match socketEmit E "messageUpdate" created w1 with
              | (Ok _, w2) =>
                  exists w',
                    addMessageRoute E req w
                    = Run (Ok tt) w'
                        [Entry (CMessageCreate doc) false;
                         Entry (CEmit "messageUpdate" created) false;
                         Entry (CRespond 200 (PJson created)) false]
              | (Throw _, w2) =>
                  exists w',
                    addMessageRoute E req w
                    = Run (Ok tt) w'
                        [Entry (CMessageCreate doc) false;
                         Entry (CEmit "messageUpdate" created) true;
                         Entry (CRespond 500 (PText "Error when adding message")) false]
              end
          end)
  end.
Proof.
  intros Hresp. unfold addMessageRoute.
  destruct (messageToAdd req) as [incoming|].
  - destruct (normalized_lookup E incoming w) as [normalized [Hnorm [Hmsg [Hfrom Htime]]]].
    split.
    + intros Hblank.
      destruct (res_send_run E Hresp 400 (PText "Invalid message body") w) as [w' Hrun].
      exists w'. apply try_catch_ok.
      rewrite (bind_run _ _ _ _ _ _ Hnorm). cbn [app].
      assert (Hinvalid : isMessageValid (Some normalized) = false).
      { unfold isMessageValid. cbn zeta. rewrite Hmsg, Hfrom.
        destruct Hblank as [H|H]; rewrite (blank_not_valid E _ H);
          [reflexivity|apply andb_false_r]. }
      rewrite Hinvalid. cbn [negb]. rewrite Hrun. reflexivity.
    + intros text from Ht Hf Hnt Hnf. cbn zeta.
      assert (Hvalid : isMessageValid (Some normalized) = true).
      { unfold isMessageValid. cbn zeta. rewrite Hmsg, Hfrom, Ht, Hf.
        rewrite (nonblank_valid E text Hnt), (nonblank_valid E from Hnf). reflexivity. }
      assert (Hsave :
                saveMessage E (Some normalized) w =
                  match messageCreate E
                          (message_doc (VStr (trim text)) (VStr (trim from))
                             (computed_timestamp E w (Some incoming))) w with
                  | (Ok created, w1) =>
                      Run (Ok created) w1
                        [Entry (CMessageCreate
                                  (message_doc (VStr (trim text)) (VStr (trim from))
                                     (computed_timestamp E w (Some incoming)))) false]
                  | (Throw _, w1) =>
                      Run (Ok (errorResp "Failed to save message")) w1
                        [Entry (CMessageCreate
                                  (message_doc (VStr (trim text)) (VStr (trim from))
                                     (computed_timestamp E w (Some incoming)))) true]
                  end).
      { rewrite (saveMessage_nonblank E (Some normalized) w (trim text) (trim from)).
        - cbn zeta. rewrite Htime, !trim_idempotent. reflexivity.
        - rewrite Hmsg, Ht. reflexivity.
        - rewrite Hfrom, Hf. reflexivity.
        - rewrite trim_idempotent. exact Hnt.
        - rewrite trim_idempotent. exact Hnf. }
      destruct (messageCreate E _ w) as [[created|e] w1].
      * intros Hnoerr.
        destruct (socketEmit E "messageUpdate" created w1) as [[[]|e] w2] eqn:Hemit.
        -- destruct (res_send_run E Hresp 200 (PJson created) w2) as [w' Hrun].
           exists w'. apply try_catch_ok.
           rewrite (bind_run _ _ _ _ _ _ Hnorm). cbn [app]. rewrite Hvalid. cbn [negb].
           rewrite (bind_run _ _ _ _ _ _ Hsave), Hnoerr.
           assert (Hinv : invoke (CEmit "messageUpdate" created)
                            (socketEmit E "messageUpdate" created) w1
                          = Run (Ok tt) w2 [Entry (CEmit "messageUpdate" created) false]).
           { unfold invoke. rewrite Hemit. reflexivity. }
           rewrite (bind_run _ _ _ _ _ _ Hinv), Hrun. reflexivity.
        -- destruct (res_send_run E Hresp 500 (PText "Error when adding message") w2)
             as [w' Hrun].
           exists w'.
           assert (Hinv : invoke (CEmit "messageUpdate" created)
                            (socketEmit E "messageUpdate" created) w1
                          = Run (Throw e) w2 [Entry (CEmit "messageUpdate" created) true]).
           { unfold invoke. rewrite Hemit. reflexivity. }
           match goal with
           | |- try_catch ?m ?h w = _ =>
               assert (Hinner :
                         m w = Run (Throw e) w2
                                 [Entry (CMessageCreate
                                           (message_doc (VStr (trim text)) (VStr (trim from))
                                              (computed_timestamp E w (Some incoming))))
                                    false;
                                  Entry (CEmit "messageUpdate" created) true])
           end.
           { rewrite (bind_run _ _ _ _ _ _ Hnorm). cbn [app]. rewrite Hvalid. cbn [negb].
             rewrite (bind_run _ _ _ _ _ _ Hsave), Hnoerr.
             rewrite (bind_throw _ _ _ _ _ _ Hinv). reflexivity. }
           rewrite (try_catch_throw _ _ _ _ _ _ Hinner), Hrun. reflexivity.
      * destruct (res_send_run E Hresp 500 (PJson (errorResp "Failed to save message")) w1)
          as [w' Hrun].
        exists w'. apply try_catch_ok.
        rewrite (bind_run _ _ _ _ _ _ Hnorm). cbn [app]. rewrite Hvalid. cbn [negb].
        rewrite (bind_run _ _ _ _ _ _ Hsave), errorResp_has_error, Hrun. reflexivity.
  - destruct (res_send_run E Hresp 400 (PText "Invalid request") w) as [w' Hrun].
    exists w'. apply try_catch_ok. exact Hrun.
Qed.

Lemma addMessageRoute_answers_witness :
  exists w',
    addMessageRoute muteEnv
      (Build_AddMessageRequest
         (Some (obj [("msg", VStr " Hello "); ("msgFrom", VStr "User1")]))) store0
    = Run (Ok tt) w'
        [Entry (CMessageCreate
                  (message_doc (VStr "Hello") (VStr "User1") (VDate (Some 1717459200000))))
           false;
         Entry (CEmit "messageUpdate"
                  (obj [("_id", VId 1); ("msg", VStr "Hello"); ("msgFrom", VStr "User1");
                        ("msgDateTime", VDate (Some 1717459200000)); ("__v", VNum 0)]))
           true;
         Entry (CRespond 500 (PText "Error when adding message")) false].
Proof.
  exact (proj2 (addMessageRoute_answers store muteEnv store0
                  (Build_AddMessageRequest
                     (Some (obj [("msg", VStr " Hello "); ("msgFrom", VStr "User1")])))
                  (fun status b w => ex_intro _ _ eq_refl))
           " Hello " "User1" eq_refl eq_refl
           ltac:(vm_compute; discriminate) ltac:(vm_compute; discriminate) eq_refl).
Defined.

(** X13. [saveMessage] reads the text, the author and the timestamp of its
    argument and nothing else, and the document it hands to [create] has
    these three properties only: an [_id] supplied by the caller, which the
    route copies into the normalised message, never reaches the store. *)
Theorem saveMessage_reads_three_fields
    (W : Type) (E : Env W) (w : W) (message message' : option jsobj) :
  oget message "msg" = oget message' "msg" ->
  oget message "msgFrom" = oget message' "msgFrom" ->
  oget message "msgDateTime" = oget message' "msgDateTime" ->
  saveMessage E message w = saveMessage E message' w /\
  (forall doc r,
      In (Entry (CMessageCreate doc) r) (calls (saveMessage E message w)) ->
      dom doc = ({[ "msg"; "msgFrom"; "msgDateTime" ]} : gset string)).
Proof.
  intros Hm Hf Ht. split.
  - rewrite !saveMessage_run. unfold computed_timestamp. rewrite Hm, Hf, Ht. reflexivity.
  - intros doc r. rewrite saveMessage_run. cbn zeta.
    destruct (falsy _ || falsy _); cbn; [tauto|].
    destruct (messageCreate E _ w) as [[d|e] w']; cbn;
      (intros [H|[]]); injection H as <- _;
      unfold message_doc; rewrite !dom_insert_L, dom_empty_L; set_solver.
Qed.

Lemma saveMessage_reads_three_fields_witness :
  saveMessage memEnv
    (Some (obj [("msg", VStr "Hello"); ("msgFrom", VStr "User1");
                ("msgDateTime", VDate (Some 1717459200000)); ("_id", VId 99)])) store0
  = saveMessage memEnv (Some message1) store0.
Proof.
  exact (proj1 (saveMessage_reads_three_fields store memEnv store0
                  (Some (obj [("msg", VStr "Hello"); ("msgFrom", VStr "User1");
                              ("msgDateTime", VDate (Some 1717459200000));
                              ("_id", VId 99)]))
                  (Some message1) eq_refl eq_refl eq_refl)).
Defined.
